(** * binstar_client: the distribution transfer protocol of [Binstar]

    A shallow embedding of [binstar_client/__init__.py]: the constructor of
    [Binstar], [_check_response], [download] and [upload].  The client talks
    to two kinds of peers, the API server (through [self.session]) and the
    storage backend or redirect target (through the bare [requests.get] and
    [requests.post]); it reads a caller-owned file object, prints and warns.
    All of that is threaded through an explicit [world]: the chronological
    log of effects (newest first), the state of the file object and the
    entropy the multipart encoder draws its boundary from.  Any call of the
    environment may raise: the transport, the file object, and [pv] on a
    version it cannot parse. *)

From Stdlib Require Import ZArith.
From stdpp Require Import base option list strings gmap pretty.

Open Scope Z_scope.

#[local] Set Warnings "-register-all".

(** ** Python values *)

(** What [json.loads] produces, and what the client builds with [dict(...)].
    A [dict] keeps its items as an association list: the form fields of the
    staging reply are forwarded in the order they have. *)
Inductive json :=
| JNull
| JBool (b : bool)
| JNum (n : Z)
| JStr (s : string)
| JArr (items : list json)
| JObj (items : list (string * json)).

(** The exception classes of [binstar_client.errors]; the three specific
    ones are subclasses of [BinstarError]. *)
Inductive ErrCls := BinstarError | Unauthorized | NotFound | Conflict.

Inductive exn :=
| ApiError (cls : ErrCls) (msg : json) (status : Z)   (* ErrCls(msg, status_code) *)
| TypeError (msg : string)
| KeyError (key : string)
| AttributeError (msg : string)
| UnboundLocalError (name : string)
| ValueError (msg : string)
| IOError (msg : string)
| RequestException (msg : string)                      (* raised by the requests transport *)
| OtherError (cls msg : string).                       (* an exception of any other class *)

Inductive result (A : Type) :=
| Ok (a : A)
| Raise (e : exn).
Arguments Ok {A} a.
Arguments Raise {A} e.

Definition is_ok {A} (r : result A) : bool :=
  match r with Ok _ => true | Raise _ => false end.

(** Truthiness of an optional string argument: [if token:], [if md5:]. *)
Definition truthy (s : option string) : bool :=
  match s with
  | Some s => negb (String.eqb s "")
  | None => false
  end.

Fixpoint assoc (k : string) (kv : list (string * json)) : option json :=
  match kv with
  | [] => None
  | (k', v) :: kv => if String.eqb k k' then Some v else assoc k kv
  end.

Fixpoint assoc_set (k : string) (v : json) (kv : list (string * json))
  : list (string * json) :=
  match kv with
  | [] => [(k, v)]
  | (k', v') :: kv =>
      if String.eqb k k' then (k, v) :: kv else (k', v') :: assoc_set k v kv
  end.

(** [o[k]] *)
Definition getitem (o : json) (k : string) : result json :=
  match o with
  | JObj kv =>
      match assoc k kv with
      | Some v => Ok v
      | None => Raise (KeyError k)
      end
  | _ => Raise (TypeError "object is not subscriptable by a string key")
  end.

(** [o[k] = v] *)
Definition setitem (o : json) (k : string) (v : json) : result json :=
  match o with
  | JObj kv => Ok (JObj (assoc_set k v kv))
  | _ => Raise (TypeError "object does not support item assignment")
  end.

(** [o.get(k, default)]: only a [dict] has the method. *)
Definition dict_get (o : json) (k : string) (default : json) : result json :=
  match o with
  | JObj kv => Ok (from_option id default (assoc k kv))
  | _ => Raise (AttributeError "object has no attribute 'get'")
  end.

(** [isinstance(o, dict)] *)
Definition is_dict (o : json) : bool :=
  match o with JObj _ => true | _ => false end.

(** ** HTTP messages *)

Inductive method := GET | POST.

(** A request as it leaves the client.  [req_headers] holds the headers the
    client adds to the defaults of the requests library, which every request
    carries alike. *)
Record request := {
  meth : method;
  url : string;
  req_headers : gmap string string;
  data : option string;
  verify : bool;
  allow_redirects : bool;
  stream : bool;
  timeout : option Z
}.

(** A response as the client reads it.  [res_headers] is looked up by the
    lower-case name, as the client does; [json_body] is what [res.json()]
    returns, [None] when the body does not parse. *)
Record response := {
  status_code : Z;
  res_headers : gmap string string;
  text : string;
  json_body : option json
}.

Definition res_json (res : response) : result json :=
  match json_body res with
  | Some j => Ok j
  | None => Raise (ValueError "No JSON object could be decoded")
  end.

(** ** The world *)

(** The caller's file object [fd]: any object with [tell] and [seek].
    Either method may raise, each an exception of its own, and [seek] may
    do so for some arguments only: a Python 2 file on a pipe refuses both
    with [IOError], a [GzipFile] tells its position and refuses to seek from
    the end with [ValueError]. *)
Record file := {
  content : string;
  pos : Z;
  tell_raises : option exn;
  seek_raises : Z -> Z -> option exn   (* by offset and whence *)
}.

Definition SEEK_SET : Z := 0.
Definition SEEK_CUR : Z := 1.
Definition SEEK_END : Z := 2.

Inductive fd_op :=
| Tell
| Seek (offset whence : Z)
| HashRead (size : option Z)   (* compute_hash(fd, size=size) *)
| BodyRead.                    (* the multipart body generator reading fd *)

(** What a run leaves in the log.  Beside the effects on the outside, the
    log keeps the values [upload] assigns to the form fields of the grant
    ([s3data[key] = value]), a dict of its own that no caller sees. *)
Inductive event :=
| EHttp (in_session : bool) (req : request) (reply : result response)
| EWarn (msg : string)
| EPrint (line : string)
| EFd (op : fd_op)
| EField (key : string) (value : json).

Record world := {
  log : list event;   (* newest first *)
  fd : file;
  seed : N
}.

Definition touches_fd (e : event) : bool :=
  match e with EFd _ => true | _ => false end.

Definition is_http (e : event) : bool :=
  match e with EHttp _ _ _ => true | _ => false end.

(** The operations on the file object, oldest last. *)
Fixpoint fd_ops (l : list event) : list fd_op :=
  match l with
  | [] => []
  | EFd op :: l => op :: fd_ops l
  | _ :: l => fd_ops l
  end.

(** The requests issued outside the session, oldest last. *)
Fixpoint bare_requests (l : list event) : list request :=
  match l with
  | [] => []
  | EHttp false req _ :: l => req :: bare_requests l
  | _ :: l => bare_requests l
  end.

(** The requests issued through the session, oldest last. *)
Fixpoint session_requests (l : list event) : list request :=
  match l with
  | [] => []
  | EHttp true req _ :: l => req :: session_requests l
  | _ :: l => session_requests l
  end.

(** ** The monad of client code: state passing over [world], with exceptions *)

Definition M (A : Type) : Type := world -> result A * world.

Definition ret {A} (a : A) : M A := fun w => (Ok a, w).

Definition raise {A} (e : exn) : M A := fun w => (Raise e, w).

Definition bind {A B} (m : M A) (k : A -> M B) : M B :=
  fun w =>
    match m w with
    | (Ok a, w') => k a w'
    | (Raise e, w') => (Raise e, w')
    end.

Definition lift {A} (r : result A) : M A := fun w => (r, w).

Notation "x <- m ;; k" := (bind m (fun x => k))
  (at level 100, m at next level, right associativity).
Notation "m ;;; k" := (bind m (fun _ => k))
  (at level 100, right associativity).

Definition emit (e : event) : M unit :=
  fun w => (Ok tt, {| log := e :: log w; fd := fd w; seed := seed w |}).

(** [warnings.warn(msg, stacklevel=4)] under the default filters. *)
Definition warn (msg : string) : M unit := emit (EWarn msg).

(** The [print] statement. *)
Definition print (line : string) : M unit := emit (EPrint line).

(** *** The file object *)

Definition file_size (f : file) : Z := Z.of_nat (String.length (content f)).

Definition at_pos (f : file) (p : Z) : file :=
  {| content := content f; pos := p;
     tell_raises := tell_raises f; seek_raises := seek_raises f |}.

(** [fd.tell()] *)
Definition fd_tell : M Z :=
  fun w =>
    let w' := {| log := EFd Tell :: log w; fd := fd w; seed := seed w |} in
    match tell_raises (fd w) with
    | Some e => (Raise e, w')
    | None => (Ok (pos (fd w)), w')
    end.

(** [fd.seek(offset, whence)] *)
Definition fd_seek (offset whence : Z) : M unit :=
  fun w =>
    let l := EFd (Seek offset whence) :: log w in
    match seek_raises (fd w) offset whence with
    | Some e => (Raise e, {| log := l; fd := fd w; seed := seed w |})
    | None =>
        let base :=
          if whence =? SEEK_END then file_size (fd w)
          else if whence =? SEEK_CUR then pos (fd w)
          else 0 in
        (Ok tt, {| log := l; fd := at_pos (fd w) (base + offset); seed := seed w |})
    end.

(** ** The client *)

Definition __version__ : string := "0.4.2".

Record Session := {
  session_headers : gmap string string
}.

Record Binstar := {
  session : Session;
  token : option string;
  domain : string
}.

(** [Binstar.__init__(self, token=None, domain='https://api.binstar.org')] *)
Definition Binstar_init (token : option string) (domain : string) : Binstar :=
  let headers := <["x-binstar-api-version" := __version__]> ∅ in
  let headers :=
    if truthy token
    then <["Authorization" := "token " +:+ default "" token]> headers
    else headers in
  {| session := {| session_headers := headers |};
     token := token;
     domain := domain |}.

Definition newline : string := String (Ascii.ascii_of_nat 10) "".

(** ['%s/<what>/%s/%s/%s/%s' % (self.domain, login, package_name, release, basename)] *)
Definition endpoint (self : Binstar) (what login package_name release basename : string)
  : string :=
  domain self +:+ "/" +:+ what +:+ "/" +:+ login +:+ "/" +:+ package_name
    +:+ "/" +:+ release +:+ "/" +:+ basename.

(** A request of [self.session]: the headers of the call are merged over
    those of the session. *)
Definition session_request (self : Binstar) (m : method) (u : string)
    (headers : gmap string string) (d : option string) (redirects : bool) : request :=
  {| meth := m; url := u;
     req_headers := headers ∪ session_headers (session self);
     data := d; verify := true; allow_redirects := redirects;
     stream := false; timeout := None |}.

(** A request of the module-level [requests.get] and [requests.post]: a
    session of its own, with the headers of the call only. *)
Definition bare_request (m : method) (u : string)
    (headers : gmap string string) (d : option string) (streaming : bool)
    (t : option Z) : request :=
  {| meth := m; url := u; req_headers := headers;
     data := d; verify := true; allow_redirects := true;
     stream := streaming; timeout := t |}.

(** ** A concrete environment, for running the client

    A scripted peer answers the n-th request with the n-th reply of its
    script, whatever the request is. *)

Fixpoint count_http (l : list event) : nat :=
  match l with
  | [] => O
  | e :: l => if is_http e then S (count_http l) else count_http l
  end.

Definition scripted (replies : list (result response)) : list event -> request -> result response :=
  fun l _ => nth (count_http l) replies (Raise (RequestException "connection refused")).

Definition digit_of (c : Ascii.ascii) : option N :=
  let n := Ascii.N_of_ascii c in
  if ((48 <=? n) && (n <=? 57))%N then Some (n - 48)%N else None.

(** The parts of a version between its dots; [part] is what has been read
    since the last dot. *)
Fixpoint split_dots (v part : string) : list string :=
  match v with
  | EmptyString => [part]
  | String c v' =>
      if (Ascii.N_of_ascii c =? 46)%N   (* a dot *)
      then part :: split_dots v' ""
      else split_dots v' (part +:+ String c "")
  end.

(** [int(s)] for a string of digits; [None] where [int] raises. *)
Fixpoint int_of (s : string) (acc : option N) : option N :=
  match s with
  | EmptyString => acc
  | String c s' =>
      match digit_of c with
      | Some d => int_of s' (Some (10 * default 0 acc + d)%N)
      | None => None
      end
  end.

Fixpoint ints_of (parts : list string) : result (list N) :=
  match parts with
  | [] => Ok []
  | p :: parts =>
      match int_of p None with
      | None => Raise (ValueError ("invalid literal for int() with base 10: '"
                                     +:+ p +:+ "'"))
      | Some n =>
          match ints_of parts with
          | Ok ns => Ok (n :: ns)
          | Raise e => Raise e
          end
      end
  end.

(** A [pv] for the examples: it reads a version as the tuple of the numbers
    between its dots and raises [ValueError] for a part that is no number,
    as [int] does. *)
Definition example_pv (v : string) : result (list N) := ints_of (split_dots v "").

(** The order of tuples. *)
Fixpoint example_version_gt (a b : list N) : bool :=
  match a, b with
  | [], _ => false
  | _ :: _, [] => true
  | x :: a, y :: b =>
      if (y <? x)%N then true
      else if (x <? y)%N then false
      else example_version_gt a b
  end.

Definition example_STATUS_CODES : gmap Z (string * string) :=
  list_to_map
    [(201, ("Created", "Document created, URL follows"));
     (401, ("Unauthorized", "No permission -- see authorization schemes"));
     (404, ("Not Found", "Nothing matches the given URI"));
     (500, ("Internal Server Error", "Server got itself in trouble"))].

Definition example_jencode (j : json) : string :=
  match j with
  | JObj kv => "{" +:+ String.concat "," (map fst kv) +:+ "}"
  | _ => "null"
  end.

(** Reads the file object to its end; the digests are those of no bytes. *)
Definition example_compute_hash (f : file) (size : option Z)
  : result (string * string * Z) * file :=
  (Ok ("d41d8cd98f00b204e9800998ecf8427e", "1B2M2Y8AsgTpgAmY7PhCfg==",
       file_size f - pos f),
   at_pos f (Z.max (pos f) (file_size f))).

Definition example_stream_multipart (boundary : N) (fields : json) (basename : string)
    (f : file) (callback : option unit) : result (string * gmap string string) :=
  Ok ("--" +:+ pretty boundary +:+ "--",
      {[ "Content-Type" := "multipart/form-data; boundary=" +:+ pretty boundary ]}).

Definition response_of (status : Z) (body : option json) : response :=
  {| status_code := status; res_headers := ∅; text := ""; json_body := body |}.

Definition reply (status : Z) (body : option json) : result response :=
  Ok (response_of status body).

(** A 302 with its [Location]. *)
Definition redirect (location : string) : response :=
  {| status_code := 302; res_headers := {[ "location" := location ]};
     text := ""; json_body := None |}.

Definition example_grant : json :=
  JObj [("s3_url", JStr "https://storage.example/bucket");
        ("s3form_data", JObj [("key", JStr "dist/pkg-1.0.tar.gz")]);
        ("dist_id", JStr "5f3c")].

Definition empty_file : file :=
  {| content := ""; pos := 0; tell_raises := None; seek_raises := fun _ _ => None |}.

(** A Python 2 file on a pipe. *)
Definition pipe : file :=
  {| content := "abcdef"; pos := 0;
     tell_raises := Some (IOError "[Errno 29] Illegal seek");
     seek_raises := fun _ _ => Some (IOError "[Errno 29] Illegal seek") |}.

Definition part_read_file : file :=
  {| content := "abcdef"; pos := 2; tell_raises := None; seek_raises := fun _ _ => None |}.

(** A stream that tells its position and seeks forward, not from the end,
    as a [GzipFile] opened for reading. *)
Definition gzip_stream : file :=
  {| content := "abcdef"; pos := 2; tell_raises := None;
     seek_raises := fun _ whence =>
                      if whence =? SEEK_END
                      then Some (ValueError "Seek from end not supported")
                      else None |}.

(** A response with the version header of its server. *)
Definition versioned (v : string) (status : Z) (body : option json) : response :=
  {| status_code := status; res_headers := {[ "x-binstar-api-version" := v ]};
     text := ""; json_body := body |}.

Definition fresh (f : file) : world := {| log := []; fd := f; seed := 7 |}.

Definition example_metadata : json :=
  JObj [("basename", JStr "pkg-1.0.tar.gz"); ("md5", JStr "d41d8cd98f00b204e9800998ecf8427e")].

(** A service that serves a download (redirect, then the content) to a GET
    and takes an upload (stage, store, commit) by POST. *)
Definition example_service : list event -> request -> result response :=
  fun l req =>
    match meth req with
    | GET =>
        scripted [Ok (redirect "https://cdn.example/pkg-1.0.tar.gz"); reply 200 None] l req
    | POST =>
        scripted [reply 200 (Some example_grant); reply 201 None;
                  reply 200 (Some example_metadata)] l req
    end.

(** ** More Python values *)

(** Truthiness of a value: [x or y], [bool(x)], [if x:]. *)
Definition json_truthy (j : json) : bool :=
  match j with
  | JNull => false
  | JBool b => b
  | JNum n => negb (n =? 0)
  | JStr s => negb (String.eqb s "")
  | JArr [] => false
  | JArr (_ :: _) => true
  | JObj [] => false
  | JObj (_ :: _) => true
  end.

(** ['%s' % x] for an optional string: [None] prints as its name. *)
Definition str_of (o : option string) : string := default "None" o.

(** Which exchanges of a log went through the session, newest first. *)
Fixpoint http_order (l : list event) : list bool :=
  match l with
  | [] => []
  | EHttp in_session _ _ :: l => in_session :: http_order l
  | _ :: l => http_order l
  end.

(** The lines printed, newest first. *)
Fixpoint printed (l : list event) : list string :=
  match l with
  | [] => []
  | EPrint line :: l => line :: printed l
  | _ :: l => printed l
  end.

(** The form fields the client has set, newest first. *)
Fixpoint fields_set (l : list event) : list (string * json) :=
  match l with
  | [] => []
  | EField key value :: l => (key, value) :: fields_set l
  | _ :: l => fields_set l
  end.

(** The client's own exception classes. *)
Definition is_binstar_error {A} (r : result A) : bool :=
  match r with
  | Raise (ApiError _ _ _) => true
  | _ => false
  end.

(** The warnings given, newest first. *)
Fixpoint warnings (l : list event) : list string :=
  match l with
  | [] => []
  | EWarn msg :: l => msg :: warnings l
  | _ :: l => warnings l
  end.

Definition example_b64encode (s : string) : string := "b64(" +:+ s +:+ ")".

Definition example_json_dumps (j : json) : string := example_jencode j.

Definition example_py_str (j : json) : string := "<value>".

Definition example_uname : option string := Some "buildhost".

(** Finds an event in the log of a concrete run. *)
Ltac pick_event := repeat first [ left; reflexivity | right ].

Section Client.

(** Parts of the package that this module imports and that are taken as
    given: [pv], which parses a version or raises, and the order of the
    versions it returns ([binstar_client.utils]), the table [STATUS_CODES]
    ([binstar_client.utils.http_codes]), the serializer [jencode], the
    hasher [compute_hash], which reads the file object it is given, and
    [stream_multipart] ([binstar_client.requests_ext]), which draws a
    random boundary, here from the seed of the world. *)
Context {Version : Type}.
Variable pv : string -> result Version.
Variable version_gt : Version -> Version -> bool.
Variable STATUS_CODES : gmap Z (string * string).
Variable jencode : json -> string.
Variable compute_hash : file -> option Z -> result (string * string * Z) * file.
Context {Callback : Type}.
Variable stream_multipart :
  N -> json -> string -> file -> option Callback ->
  result (string * gmap string string).

(** The peers: what comes back for a request, given all that happened
    before it. *)
Variable server : list event -> request -> result response.

Definition send (in_session : bool) (req : request) : M response :=
  fun w =>
    let reply := server (log w) req in
    (reply, {| log := EHttp in_session req reply :: log w;
               fd := fd w; seed := seed w |}).

(** [self.session.get(url, verify=True, headers=headers, allow_redirects=...)] *)
Definition session_get (self : Binstar) (u : string)
    (headers : gmap string string) (redirects : bool) : M response :=
  send true (session_request self GET u headers None redirects).

(** [self.session.post(url, data=data, verify=True)] *)
Definition session_post (self : Binstar) (u : string) (d : string) : M response :=
  send true (session_request self POST u ∅ (Some d) true).

(** [requests.get(url, stream=True, verify=True)] *)
Definition requests_get (u : string) : M response :=
  send false (bare_request GET u ∅ None true None).

(** The generator returned by [stream_multipart] is consumed while the
    request is written: the file object is read to its end. *)
Definition read_body : M unit :=
  fun w =>
    (Ok tt, {| log := EFd BodyRead :: log w;
               fd := at_pos (fd w) (Z.max (pos (fd w)) (file_size (fd w)));
               seed := seed w |}).

(** [requests.post(url, data=data_stream, verify=True, timeout=..., headers=headers)];
    the library refuses a URL that is not a string. *)
Definition requests_post (u : json) (data_stream : string)
    (headers : gmap string string) (t : Z) : M response :=
  match u with
  | JStr u =>
      read_body ;;;
      send false (bare_request POST u headers (Some data_stream) false (Some t))
  | _ => raise (RequestException "Invalid URL")
  end.

(** [compute_hash(fd, size=size)] *)
Definition call_compute_hash (size : option Z) : M (string * string * Z) :=
  fun w =>
    let '(r, f) := compute_hash (fd w) size in
    (r, {| log := EFd (HashRead size) :: log w; fd := f; seed := seed w |}).

(** [stream_multipart(s3data, files={'file': (basename, fd)}, callback=callback)] *)
Definition call_stream_multipart (fields : json) (basename : string)
    (callback : option Callback) : M (string * gmap string string) :=
  fun w =>
    (stream_multipart (seed w) fields basename (fd w) callback,
     {| log := log w; fd := fd w; seed := N.succ (seed w) |}).

(** *** [Binstar._check_response(self, res, allowed=[200])] *)

Definition ErrCls_of (status : Z) : ErrCls :=
  if status =? 401 then Unauthorized
  else if status =? 404 then NotFound
  else if status =? 409 then Conflict
  else BinstarError.

Definition version_warning (api_version : string) : string :=
  "The api server is running the binstar-api version " +:+ api_version
    +:+ ". you are using " +:+ __version__ +:+ newline
    +:+ "Please update your client with pip install -U binstar or conda update binstar".

(** [res.headers.get('x-binstar-api-version', '0.2.1')] *)
Definition api_version_of (res : response) : string :=
  default "0.2.1" (res_headers res !! "x-binstar-api-version").

(** [pv(api_version) > pv(__version__)]: the operands from left to right;
    what [pv] raises, the comparison raises. *)
Definition server_is_newer (api_version : string) : result bool :=
  match pv api_version with
  | Raise e => Raise e
  | Ok theirs =>
      match pv __version__ with
      | Raise e => Raise e
      | Ok ours => Ok (version_gt theirs ours)
      end
  end.

Definition _check_response (res : response) (allowed : list Z) : M unit :=
  let api_version := api_version_of res in
  newer <- lift (server_is_newer api_version) ;;
  (if newer : bool
   then warn (version_warning api_version)
   else ret tt) ;;;
  if negb (bool_decide (status_code res ∈ allowed)) then
    let '(short, long) :=
      default ("?", "Undefined error") (STATUS_CODES !! status_code res) in
    let msg :=
      JStr (short +:+ ": " +:+ long +:+ " (status code: "
              +:+ pretty (status_code res) +:+ ")") in
    msg <- match json_body res with
           | None => ret msg                                  (* except: pass *)
           | Some data => lift (dict_get data "error" msg)    (* else: *)
           end ;;
    raise (ApiError (ErrCls_of (status_code res)) msg (status_code res))
  else ret tt.

(** *** [Binstar.download(self, login, package_name, release, basename, md5=None)] *)

Definition download (self : Binstar) (login package_name release basename : string)
    (md5 : option string) : M (option response) :=
  let u := endpoint self "download" login package_name release basename in
  let headers : gmap string string :=
    if truthy md5 then {[ "ETag" := default "" md5 ]} else ∅ in
  res <- session_get self u headers false ;;
  _check_response res [302; 304] ;;;
  if status_code res =? 304 then ret None
  else if status_code res =? 302 then
    location <- lift (match res_headers res !! "location" with
                      | Some l => Ok l
                      | None => Raise (KeyError "location")
                      end) ;;
    res2 <- requests_get location ;;
    ret (Some res2)
  else ret None.

(** *** [Binstar.upload(self, login, package_name, release, basename, fd,
        distribution_type, description='', md5=None, size=None, attrs=None,
        callback=None)] *)

(** The [elif size is None:] block: the size by seeking. *)
Definition size_by_seek : M Z :=
  spos <- fd_tell ;;
  fd_seek 0 SEEK_END ;;;
  e <- fd_tell ;;
  let size := e - spos in
  fd_seek spos SEEK_SET ;;;
  ret size.

(** [s3data[key] = value]: the assignment is logged with its value, then
    made. *)
Definition set_field (s3data : json) (key : string) (value : json) : M json :=
  emit (EField key value) ;;;
  lift (setitem s3data key value).

(** Reading a local variable that no branch has bound. *)
Definition local {A} (name : string) (v : option A) : M A :=
  match v with
  | Some a => ret a
  | None => raise (UnboundLocalError name)
  end.

Definition upload (self : Binstar) (login package_name release basename : string)
    (distribution_type description : string)
    (md5 : option string) (size : option Z) (attrs : option json)
    (callback : option Callback) : M json :=
  let u := endpoint self "stage" login package_name release basename in
  let attrs := match attrs with None => JObj [] | Some a => a end in
  (if negb (is_dict attrs)
   then raise (TypeError "argument attrs must be a dictionary")
   else ret tt) ;;;
  let payload := JObj [("distribution_type", JStr distribution_type);
                       ("description", JStr description);
                       ("attrs", attrs)] in
  let d := jencode payload in
  res <- session_post self u d ;;
  _check_response res [200] ;;;
  obj <- lift (res_json res) ;;
  s3url <- lift (getitem obj "s3_url") ;;
  s3data <- lift (getitem obj "s3form_data") ;;
  (* b64md5 is bound by the first branch only *)
  digest <- match md5 with
            | None =>
                h <- call_compute_hash size ;;
                let '(_hexmd5, b64md5, size) := h in
                ret (Some b64md5, size)
            | Some _ =>
                match size with
                | None => size <- size_by_seek ;; ret (None, size)
                | Some size => ret (None, size)
                end
            end ;;
  let '(b64md5, size) := digest in
  s3data <- set_field s3data "Content-Length" (JNum size) ;;
  b64md5 <- local "b64md5" b64md5 ;;
  s3data <- set_field s3data "Content-MD5" (JStr b64md5) ;;
  enc <- call_stream_multipart s3data basename callback ;;
  let '(data_stream, headers) := enc in
  s3res <- requests_post s3url data_stream headers (10 * 60 * 60) ;;
  if negb (status_code s3res =? 201) then
    print (text s3res) ;;;
    print "" ;;;
    print "" ;;;
    raise (ApiError BinstarError (JStr "Error uploading to s3") (status_code s3res))
  else
    let u := endpoint self "commit" login package_name release basename in
    (* the two assignments above changed obj['s3form_data'] in place;
       obj['dist_id'] is another item of obj *)
    dist_id <- lift (getitem obj "dist_id") ;;
    let payload := JObj [("dist_id", dist_id)] in
    let d := jencode payload in
    res <- session_post self u d ;;
    _check_response res [200] ;;;
    lift (res_json res).

(** The request of the stage phase. *)
Definition stage_request (self : Binstar)
    (login package_name release basename distribution_type description : string)
    (attrs : option json) : request :=
  session_request self POST
    (endpoint self "stage" login package_name release basename) ∅
    (Some (jencode
             (JObj [("distribution_type", JStr distribution_type);
                    ("description", JStr description);
                    ("attrs", match attrs with None => JObj [] | Some a => a end)])))
    true.

(** The request that opens a download. *)
Definition download_request (self : Binstar)
    (login package_name release basename : string) (md5 : option string) : request :=
  session_request self GET
    (endpoint self "download" login package_name release basename)
    (if truthy md5 then {[ "ETag" := default "" md5 ]} else ∅) None false.

(** *** The rest of the interface

    More of what the module imports: [base64.b64encode], [json.dumps], the
    text ['%s'] gives for a value that is no string, and the node name of
    [os.uname()], [None] on a platform whose [os] has no [uname]. *)
Variable b64encode : string -> string.
Variable json_dumps : json -> string.
Variable py_str : json -> string.
Variable uname : option string.

(** ['%s' % v] *)
Definition format_s (v : json) : string :=
  match v with
  | JStr s => s
  | _ => py_str v
  end.

(** [auth=(username, password)]: the request leaves with the Basic
    [Authorization] header, in the place of the one of the session. *)
Definition with_basic_auth (req : request) (username password : string) : request :=
  {| meth := meth req; url := url req;
     req_headers :=
       <["Authorization" := "Basic " +:+ b64encode (username +:+ ":" +:+ password)]>
         (req_headers req);
     data := data req; verify := verify req;
     allow_redirects := allow_redirects req;
     stream := stream req; timeout := timeout req |}.

(** [self.session.headers.update({'Authorization': 'token %s' % (token)})] *)
Definition set_token (self : Binstar) (tok : json) : Binstar :=
  {| session :=
       {| session_headers :=
            <["Authorization" := "token " +:+ format_s tok]>
              (session_headers (session self)) |};
     token := token self;
     domain := domain self |}.

(** [Binstar.authenticate(self, username, password, application,
    application_url=None, for_user=None, scopes=None, created_with=None,
    max_age=None, strength='strong')]: the client is changed by the last
    statement before the return, so the changed client comes with the
    token. *)
Definition authenticate (self : Binstar) (username password : string)
    (application application_url for_user scopes created_with max_age strength : json)
  : M (json * Binstar) :=
  let hostname := match uname with Some nodename => nodename | None => "unknown" end in
  let u := domain self +:+ "/authentications" in
  let payload := JObj [("scopes", scopes); ("note", application);
                       ("note_url", application_url);
                       ("hostname", JStr hostname);
                       ("user", for_user);
                       ("max-age", max_age);
                       ("created_with", JNull);
                       ("strength", strength)] in
  let d := b64encode (json_dumps payload) in
  res <- send true (with_basic_auth (session_request self POST u ∅ (Some d) true)
                      username password) ;;
  _check_response res [200] ;;;
  res <- lift (res_json res) ;;
  tok <- lift (getitem res "token") ;;
  ret (tok, set_token self tok).

(** [Binstar.list_scopes(self)]: [requests.get(url)], not the session. *)
Definition list_scopes (self : Binstar) : M json :=
  let u := domain self +:+ "/scopes" in
  res <- send false (bare_request GET u ∅ None false None) ;;
  _check_response res [200] ;;;
  lift (res_json res).

(** [Binstar.authentication(self)] *)
Definition authentication (self : Binstar) : M json :=
  let u := domain self +:+ "/authentication" in
  res <- session_get self u ∅ true ;;
  _check_response res [200] ;;;
  lift (res_json res).

(** [Binstar.authentications(self)] *)
Definition authentications (self : Binstar) : M json :=
  let u := domain self +:+ "/authentications" in
  res <- session_get self u ∅ true ;;
  _check_response res [200] ;;;
  lift (res_json res).

(** [Binstar.user(self, login=None)] *)
Definition user (self : Binstar) (login : option string) : M json :=
  let u := if truthy login
           then domain self +:+ "/user/" +:+ default "" login
           else domain self +:+ "/user" in
  res <- session_get self u ∅ true ;;
  _check_response res [200] ;;;
  lift (res_json res).

(** [Binstar.user_packages(self, login=None)] *)
Definition user_packages (self : Binstar) (login : option string) : M json :=
  let u := if truthy login
           then domain self +:+ "/packages/" +:+ default "" login
           else domain self +:+ "/packages" in
  res <- session_get self u ∅ true ;;
  _check_response res [200] ;;;
  lift (res_json res).

(** [Binstar.package(self, login, package_name)] *)
Definition package (self : Binstar) (login package_name : string) : M json :=
  let u := domain self +:+ "/package/" +:+ login +:+ "/" +:+ package_name in
  res <- session_get self u ∅ true ;;
  _check_response res [200] ;;;
  lift (res_json res).

(** [Binstar.package_collaborators(self, owner, package_name)] *)
Definition package_collaborators (self : Binstar) (owner package_name : string) : M json :=
  let u := domain self +:+ "/packages/" +:+ owner +:+ "/" +:+ package_name
             +:+ "/collaborators" in
  res <- session_get self u ∅ true ;;
  _check_response res [200] ;;;
  lift (res_json res).

(** [Binstar.add_package(self, login, package_name, summary=None,
    license=None, public=True, publish=True, license_url=None, attrs=None)];
    the two assignments change the dict of the caller in place, and the
    value below is what it has become. *)
Definition add_package (self : Binstar) (login package_name : string)
    (summary license public publish license_url attrs : json) : M json :=
  let u := domain self +:+ "/package/" +:+ login +:+ "/" +:+ package_name in
  let attrs := if json_truthy attrs then attrs else JObj [] in
  attrs <- lift (setitem attrs "summary" summary) ;;
  attrs <- lift (setitem attrs "license"
                   (JObj [("name", license); ("url", license_url)])) ;;
  let payload :=
    JObj [("public", JBool (json_truthy public));
          ("publish", JBool (json_truthy publish));
          ("public_attrs", if json_truthy attrs then attrs else JObj [])] in
  let d := jencode payload in
  res <- session_post self u d ;;
  _check_response res [200] ;;;
  lift (res_json res).

(** [Binstar.release(self, login, package_name, version)] *)
Definition release (self : Binstar) (login package_name version : string) : M json :=
  let u := domain self +:+ "/release/" +:+ login +:+ "/" +:+ package_name
             +:+ "/" +:+ version in
  res <- session_get self u ∅ true ;;
  _check_response res [200] ;;;
  lift (res_json res).

(** [Binstar.add_release(self, login, package_name, version, requirements,
    announce, description)] *)
Definition add_release (self : Binstar) (login package_name version : string)
    (requirements announce description : json) : M json :=
  let u := domain self +:+ "/release/" +:+ login +:+ "/" +:+ package_name
             +:+ "/" +:+ version in
  let payload := JObj [("requirements", requirements); ("announce", announce);
                       ("description", description)] in
  let d := jencode payload in
  res <- session_post self u d ;;
  _check_response res [200] ;;;
  lift (res_json res).

(** [Binstar.distribution(self, login, package_name, release, basename=None)] *)
Definition distribution (self : Binstar) (login package_name release : string)
    (basename : option string) : M json :=
  let u := endpoint self "dist" login package_name release (str_of basename) in
  res <- session_get self u ∅ true ;;
  _check_response res [200] ;;;
  lift (res_json res).

(** The request of a query: a GET through the session, with no header of
    the call. *)
Definition query_request (self : Binstar) (u : string) : request :=
  session_request self GET u ∅ None true.

(** A call that is one request through the session and nothing else: it
    raises what the transport or the version test on the response raises;
    otherwise it returns the parsed body of a response of status 200 and
    raises on any other response. *)
Definition asks_once (q : M json) (req : request) : Prop :=
  forall w, exists new,
    log (snd (q w)) = new ++ log w /\
    session_requests new = [req] /\ bare_requests new = [] /\
    printed new = [] /\ fd (snd (q w)) = fd w /\
    (forall e, server (log w) req = Raise e -> fst (q w) = Raise e) /\
    (forall res, server (log w) req = Ok res ->
       match server_is_newer (api_version_of res) with
       | Raise e => fst (q w) = Raise e
       | Ok _ =>
           (status_code res = 200 -> fst (q w) = res_json res) /\
           (status_code res <> 200 -> is_ok (fst (q w)) = false)
       end).

(** The request of [authenticate]. *)
Definition authenticate_request (self : Binstar) (username password : string)
    (application application_url for_user scopes max_age strength : json) : request :=
  with_basic_auth
    (session_request self POST (domain self +:+ "/authentications") ∅
       (Some (b64encode
                (json_dumps
                   (JObj [("scopes", scopes); ("note", application);
                          ("note_url", application_url);
                          ("hostname", JStr (default "unknown" uname));
                          ("user", for_user);
                          ("max-age", max_age);
                          ("created_with", JNull);
                          ("strength", strength)]))))
       true)
    username password.

(** The request of the commit phase. *)
Definition commit_request (self : Binstar)
    (login package_name release basename : string) (dist_id : json) : request :=
  session_request self POST
    (endpoint self "commit" login package_name release basename) ∅
    (Some (jencode (JObj [("dist_id", dist_id)]))) true.

(** The request of the store phase. *)
Definition store_request (u body : string) (headers : gmap string string) : request :=
  bare_request POST u headers (Some body) false (Some (10 * 60 * 60)).

(** ** Properties *)

Ltac run :=
  unfold upload, download, _check_response, size_by_seek, requests_post,
    requests_get, session_post, session_get, send, read_body, res_json,
    call_compute_hash, call_stream_multipart, local, set_field, fd_tell, fd_seek,
    warn, print, emit, lift, raise, ret, bind, SEEK_SET, SEEK_CUR, SEEK_END in *.

Ltac branch :=
  match goal with
  | |- context [match ?x with _ => _ end] =>
      lazymatch x with
      | context [match _ with _ => _ end] => fail
      | _ => destruct x eqn:?
      end
  | |- context [if ?x then _ else _] =>
      lazymatch x with
      | context [if _ then _ else _] => fail
      | context [match _ with _ => _ end] => fail
      | _ => destruct x eqn:?
      end
  end.

Ltac prefix_of l base :=
  lazymatch l with
  | base => constr:(@nil event)
  | ?e :: ?l' => let p := prefix_of l' base in constr:(e :: p)
  end.

Ltac init_of l :=
  lazymatch l with
  | [?e] => constr:(@nil event)
  | ?e :: ?l' => let p := init_of l' in constr:(e :: p)
  end.

(** Names the events a run has added to the log. *)
Ltac new_events :=
  lazymatch goal with
  | |- exists new, ?l = new ++ ?base /\ _ =>
      let p := prefix_of l base in
      exists p; split; [reflexivity | cbn [fd_ops bare_requests session_requests]]
  end.

Ltac paths :=
  repeat (branch;
          cbn [fst snd fd log seed is_ok at_pos tell_raises seek_raises pos content
               Z.eqb Pos.eqb]).

(** Turns the tests a path has gone through into facts on the status. *)
Ltac status_facts :=
  repeat match goal with
    | H : negb _ = true |- _ => apply negb_true_iff in H
    | H : negb _ = false |- _ => apply negb_false_iff in H
    | H : bool_decide _ = true |- _ => apply bool_decide_eq_true_1 in H
    | H : bool_decide _ = false |- _ => apply bool_decide_eq_false_1 in H
    | H : (_ =? _) = true |- _ => apply Z.eqb_eq in H
    | H : (_ =? _) = false |- _ => apply Z.eqb_neq in H
    | H : _ ∈ [_] |- _ => apply list_elem_of_singleton in H
    | H : _ ∉ [_] |- _ => rewrite list_elem_of_singleton in H
    | H : _ ∈ _ :: _ :: _ |- _ => rewrite !elem_of_cons, elem_of_nil in H
    | H : _ ∉ _ :: _ :: _ |- _ => rewrite !elem_of_cons, elem_of_nil in H
    | H : Ok _ = Ok _ |- _ => injection H as H; try subst
    | H : Some _ = Some _ |- _ => injection H as H; try subst
    | H : Ok _ = Raise _ |- _ => discriminate H
    | H : Raise _ = Ok _ |- _ => discriminate H
    end.

Ltac oldest_is_stage :=
  lazymatch goal with
  | |- exists later res obj, ?l = _ /\ _ =>
      let i := init_of l in
      exists i; eexists _, _;
      refine (conj _ (conj _ (conj _ (conj _ (conj _ _)))));
      [ reflexivity | reflexivity | eassumption | eassumption
      | match goal with H : ?x = _ |- is_ok ?x = true => rewrite H; reflexivity end
      | match goal with H : ?x = _ |- is_ok ?x = true => rewrite H; reflexivity end ]
  end.

(** Pins down the events a run has added, given any split of its log. *)
Ltac pin_new H :=
  lazymatch type of H with
  | ?l = ?new ++ ?base =>
      let p := prefix_of l base in
      assert (new = p) by (apply (app_inv_tail base); exact (eq_sym H));
      clear H; subst new
  end.

Ltac case_events H :=
  cbn [In] in H;
  repeat match type of H with
    | _ \/ _ => destruct H as [H | H]
    end;
  first [ contradiction H | discriminate H | idtac ].

(** Closes the paths on which the version test raised, against the fact
    that it did not. *)
Ltac version_parsed :=
  try match goal with
    | H : is_ok (Raise _) = true |- _ => discriminate H
    | H : server_is_newer ?v = Raise _, H' : is_ok (server_is_newer ?v) = true |- _ =>
        rewrite H in H'; discriminate H'
    end.

Ltac run_api :=
  unfold authenticate, list_scopes, authentication, authentications, user,
    user_packages, package, package_collaborators, add_package, release,
    add_release, distribution in *;
  run.

(** C1: with a digest supplied by the caller ([md5] not [None]) no branch
    of [upload] binds [b64md5]: every such upload raises, and none issues
    the store request, so no multipart body ever carries the supplied
    digest. *)
Theorem upload_supplied_digest_never_stored self login package_name release
    basename distribution_type description d size attrs callback w :
  let run := upload self login package_name release basename distribution_type
               description (Some d) size attrs callback w in
  is_ok (fst run) = false /\
  exists new, log (snd run) = new ++ log w /\ bare_requests new = [].
Proof.
  run. cbv zeta.
  paths; (split; [reflexivity | new_events; reflexivity]).
Qed.

(** C7: when the caller supplies both the digest and the size, [upload]
    performs no operation on the file object at all: its content and its
    read position at the end of the run are those it started with, so
    nothing is read or moved before any multipart encoding. *)
Theorem upload_digest_and_size_given_frame self login package_name release
    basename distribution_type description d n attrs callback w :
  let run := upload self login package_name release basename distribution_type
               description (Some d) (Some n) attrs callback w in
  fd (snd run) = fd w /\
  exists new, log (snd run) = new ++ log w /\ fd_ops new = [].
Proof.
  run. cbv zeta.
  paths; (split; [reflexivity | new_events; reflexivity]).
Qed.

(** C5: with no digest supplied, either the run never touches the file
    object, or the oldest event of the run is the stage exchange, answered
    with status 200 and a JSON body holding the storage URL and form
    fields, and every operation on the file object comes after it.  A
    stage response with a status outside 2xx makes [upload] raise with the
    file object untouched. *)
Theorem upload_reads_after_stage self login package_name release basename
    distribution_type description size attrs callback w :
  let stage := stage_request self login package_name release basename
                 distribution_type description attrs in
  let run := upload self login package_name release basename distribution_type
               description None size attrs callback w in
  exists new, log (snd run) = new ++ log w /\
    ((fd_ops new = [] /\ fd (snd run) = fd w) \/
     (exists later res obj,
        new = later ++ [EHttp true stage (Ok res)] /\
        fd_ops new = fd_ops later /\
        status_code res = 200 /\ json_body res = Some obj /\
        is_ok (getitem obj "s3_url") = true /\
        is_ok (getitem obj "s3form_data") = true)) /\
    (forall res, server (log w) stage = Ok res ->
       ~ (200 <= status_code res < 300) ->
       is_ok (fst run) = false /\ fd_ops new = [] /\ fd (snd run) = fd w).
Proof.
  unfold stage_request. run. cbv zeta.
  paths; new_events; status_facts.
  all: split;
    [ first [ left; split; reflexivity | right; oldest_is_stage ]
    | intros res' Hres Hstatus; status_facts;
      first [ repeat split; reflexivity | exfalso; lia ] ].
Qed.

(** C2: a store response with a status other than 201 ends the upload: it
    raises the error carrying that status, the store request is the only
    request made outside the session (no second attempt), and the stage
    request is the only one made through the session (no commit). *)
Theorem upload_store_failure_is_final self login package_name release basename
    distribution_type description md5 size attrs callback w :
  let run := upload self login package_name release basename distribution_type
               description md5 size attrs callback w in
  forall new sreq s3res,
    log (snd run) = new ++ log w ->
    In (EHttp false sreq (Ok s3res)) new ->
    status_code s3res <> 201 ->
    fst run = Raise (ApiError BinstarError (JStr "Error uploading to s3")
                       (status_code s3res)) /\
    bare_requests new = [sreq] /\
    session_requests new =
      [stage_request self login package_name release basename
         distribution_type description attrs].
Proof.
  unfold stage_request. run. cbv zeta. paths.
  all: intros new sreq s3res Hlog Hin Hstatus; pin_new Hlog.
  all: case_events Hin.
  all: simplify_eq; status_facts; try contradiction.
  all: repeat split; reflexivity.
Qed.

(** C6, as amended: with a digest but no size, an upload whose stage
    phase is accepted derives the size by [tell], [seek] to the end, [tell],
    [seek] back.  When the four calls succeed they are its only operations
    on the file object, the delta of the two positions is what
    [Content-Length] is set to, and the position is restored.  When one of
    them raises, the upload ends with that very exception of the file
    object, at that call: the client has no error of its own for a stream
    without random access.  No size is made up, and no store request is
    sent. *)
Theorem upload_size_by_seek self login package_name release basename
    distribution_type description d attrs callback w :
  let stage := stage_request self login package_name release basename
                 distribution_type description attrs in
  let run := upload self login package_name release basename distribution_type
               description (Some d) None attrs callback w in
  let spos := pos (fd w) in
  forall res obj s3url s3data new,
    log (snd run) = new ++ log w ->
    In (EHttp true stage (Ok res)) new ->
    is_ok (server_is_newer (api_version_of res)) = true ->
    status_code res = 200 ->
    json_body res = Some obj ->
    getitem obj "s3_url" = Ok s3url ->
    getitem obj "s3form_data" = Ok s3data ->
    bare_requests new = [] /\
    match tell_raises (fd w), seek_raises (fd w) 0 SEEK_END,
          seek_raises (fd w) spos SEEK_SET with
    | None, None, None =>
        fd_ops new = [Seek spos SEEK_SET; Tell; Seek 0 SEEK_END; Tell] /\
        fields_set new = [("Content-Length", JNum (file_size (fd w) - spos))] /\
        fd (snd run) = fd w
    | Some e, _, _ =>
        fst run = Raise e /\ fd_ops new = [Tell] /\
        fields_set new = [] /\ fd (snd run) = fd w
    | None, Some e, _ =>
        fst run = Raise e /\ fd_ops new = [Seek 0 SEEK_END; Tell] /\
        fields_set new = [] /\ fd (snd run) = fd w
    | None, None, Some e =>
        fst run = Raise e /\
        fd_ops new = [Seek spos SEEK_SET; Tell; Seek 0 SEEK_END; Tell] /\
        fields_set new = [] /\
        fd (snd run) = at_pos (fd w) (file_size (fd w))
    end.
Proof.
  cbv zeta. intros res obj s3url s3data new Hlog Hin Hversion Hstatus Hbody Hurl Hdata.
  revert Hlog Hin; unfold stage_request; run; cbv zeta; paths.
  all: intros Hlog Hin; pin_new Hlog; case_events Hin.
  all: simplify_eq; status_facts; try contradiction; try congruence.
  all: version_parsed.
  all: cbn [bare_requests fd_ops fields_set]; repeat split; try reflexivity.
  all: destruct (fd w); cbn; repeat f_equal; lia.
Qed.

(** C9: the comparison of versions in [_check_response] is not guarded:
    what [pv] raises on the version header of the response, the check
    raises, whatever the status, before the status is looked at and with
    nothing logged.  Only when both versions parse is the comparison
    advisory: it adds the warning to the log exactly when the version of
    the server is the greater one, leaves the file object alone, and the
    outcome of the check is that of any other response with the same status
    and body whose version header parses. *)
Theorem check_response_version_can_raise res allowed w :
  let api_version := api_version_of res in
  let run := _check_response res allowed w in
  (forall e, pv api_version = Raise e -> run = (Raise e, w)) /\
  match server_is_newer api_version with
  | Raise e => run = (Raise e, w)
  | Ok newer =>
      log (snd run) =
        (if newer then [EWarn (version_warning api_version)] else []) ++ log w /\
      fd (snd run) = fd w /\
      seed (snd run) = seed w /\
      is_ok (fst run) = bool_decide (status_code res ∈ allowed) /\
      forall res' w0,
        status_code res' = status_code res ->
        json_body res' = json_body res ->
        is_ok (server_is_newer (api_version_of res')) = true ->
        fst (_check_response res' allowed w0) = fst run
  end.
Proof.
  cbv zeta. split.
  - intros e He. unfold _check_response, server_is_newer, lift, bind.
    rewrite He. reflexivity.
  - run. paths; try reflexivity.
    all: cbn [negb] in *; status_facts.
    all: refine (conj eq_refl (conj eq_refl (conj eq_refl (conj _ _))));
      [ try reflexivity
      | intros res' w0 Hs Hb Hv; rewrite Hs, Hb;
        destruct (server_is_newer (api_version_of res')) as [[]|]; try discriminate Hv ].
    all: paths; status_facts; try contradiction; try congruence; try reflexivity.
    all: symmetry; first [apply bool_decide_eq_true_2 | apply bool_decide_eq_false_2];
      assumption.
Qed.

(** The check of the store phase is one of its own: any status other than
    201 raises the generic class with a fixed message. *)
Lemma upload_store_check self login package_name release basename
    distribution_type description md5 size attrs callback w new sreq s3res :
  let run := upload self login package_name release basename distribution_type
               description md5 size attrs callback w in
  log (snd run) = new ++ log w ->
  In (EHttp false sreq (Ok s3res)) new ->
  status_code s3res <> 201 ->
  fst run = Raise (ApiError BinstarError (JStr "Error uploading to s3")
                     (status_code s3res)).
Proof.
  run. cbv zeta. paths.
  all: intros Hlog Hin Hstatus; pin_new Hlog; case_events Hin.
  all: simplify_eq; status_facts; try contradiction; reflexivity.
Qed.

(** C8, as amended: a response whose version header parses and that
    [_check_response] finds outside the allowed statuses, with a body that
    is not JSON or is a JSON object, raises the class chosen by the status
    alone (401, 404, 409, else the generic one), with the status and with
    the [error] field of the body as message, or else the line built from
    [STATUS_CODES].  The store phase of [upload] is checked otherwise: a
    store response with any status but 201 raises the generic class with
    the message [Error uploading to s3] and the status, whatever its body
    holds. *)
Theorem check_response_classifies res allowed w :
  is_ok (server_is_newer (api_version_of res)) = true ->
  status_code res ∉ allowed ->
  json_body res = None \/ (exists kv, json_body res = Some (JObj kv)) ->
  let entry := default ("?", "Undefined error") (STATUS_CODES !! status_code res) in
  let fallback :=
    JStr (fst entry +:+ ": " +:+ snd entry +:+ " (status code: "
            +:+ pretty (status_code res) +:+ ")") in
  let msg :=
    match json_body res with
    | Some (JObj kv) => from_option id fallback (assoc "error" kv)
    | _ => fallback
    end in
  fst (_check_response res allowed w)
    = Raise (ApiError (ErrCls_of (status_code res)) msg (status_code res)) /\
  ErrCls_of 401 = Unauthorized /\ ErrCls_of 404 = NotFound /\
  ErrCls_of 409 = Conflict /\
  (forall status, status <> 401 -> status <> 404 -> status <> 409 ->
     ErrCls_of status = BinstarError) /\
  (forall self login package_name release basename distribution_type description
          md5 size attrs callback w' new sreq s3res,
     let up := upload self login package_name release basename distribution_type
                 description md5 size attrs callback w' in
     log (snd up) = new ++ log w' ->
     In (EHttp false sreq (Ok s3res)) new ->
     status_code s3res <> 201 ->
     fst up = Raise (ApiError BinstarError (JStr "Error uploading to s3")
                       (status_code s3res))).
Proof.
  intros Hversion Hout Hbody. cbv zeta.
  refine (conj _ (conj eq_refl (conj eq_refl (conj eq_refl (conj _ _))))).
  - run. unfold dict_get.
    destruct Hbody as [Hb | [kv Hb]]; rewrite !Hb.
    all: paths; version_parsed; status_facts; try contradiction; reflexivity.
  - intros status H1 H2 H3. unfold ErrCls_of.
    rewrite <- Z.eqb_neq in H1, H2, H3. rewrite H1, H2, H3. reflexivity.
  - intros self login package_name release basename distribution_type description
      md5 size attrs callback w' new sreq s3res.
    apply upload_store_check.
Qed.

(** C3, as amended: [download] opens with one GET through the session,
    redirects off, to which the call adds an [ETag] header, the digest,
    exactly when a non-empty digest is given; without one the request has
    the [ETag] of the session, if any, and none for a client made by the
    constructor.  A transport error of that GET, or an error of the version
    test on its response, ends the download with that error.  Otherwise: on
    304 it returns [None] and asks nothing more.  On 302 with a [Location]
    header it makes exactly one more GET, outside the session, streaming,
    with no header of its own, to that location, and returns its response;
    on 302 without [Location] it raises [KeyError] and asks nothing more.
    On any other status it raises and asks nothing more; the error is the
    typed one of the status whenever the body is not JSON or is a JSON
    object. *)
Theorem download_outcomes self login package_name release basename md5 w :
  let primary := download_request self login package_name release basename md5 in
  let run := download self login package_name release basename md5 w in
  exists new,
    log (snd run) = new ++ log w /\
    session_requests new = [primary] /\
    allow_redirects primary = false /\
    req_headers primary !! "ETag"
    = (if truthy md5 then md5 else session_headers (session self) !! "ETag") /\
    (forall tok dom, self = Binstar_init tok dom ->
       req_headers primary !! "ETag" = if truthy md5 then md5 else None) /\
    (forall e, server (log w) primary = Raise e ->
       fst run = Raise e /\ bare_requests new = []) /\
    (forall res, server (log w) primary = Ok res ->
       match server_is_newer (api_version_of res) with
       | Raise e => fst run = Raise e /\ bare_requests new = []
       | Ok _ =>
           (status_code res = 304 -> fst run = Ok None /\ bare_requests new = []) /\
           (status_code res = 302 ->
              match res_headers res !! "location" with
              | Some location =>
                  let second := bare_request GET location ∅ None true None in
                  bare_requests new = [second] /\
                  exists reply2,
                    In (EHttp false second reply2) new /\
                    fst run = match reply2 with
                              | Ok res2 => Ok (Some res2)
                              | Raise e => Raise e
                              end
              | None =>
                  fst run = Raise (KeyError "location") /\ bare_requests new = []
              end) /\
           (status_code res <> 302 -> status_code res <> 304 ->
              is_ok (fst run) = false /\ bare_requests new = [] /\
              (json_body res = None \/ (exists kv, json_body res = Some (JObj kv)) ->
               exists msg,
                 fst run = Raise (ApiError (ErrCls_of (status_code res)) msg
                                    (status_code res))))
       end).
Proof.
  cbv zeta.
  assert (Hcall : req_headers (download_request self login package_name release
                                 basename md5) !! "ETag"
                  = if truthy md5 then md5 else session_headers (session self) !! "ETag").
  { unfold download_request, session_request. cbn [req_headers].
    destruct md5 as [d|]; cbn [truthy default from_option id];
      [destruct (negb (String.eqb d ""))|].
    - apply lookup_union_Some_l, lookup_singleton_eq.
    - rewrite map_empty_union. reflexivity.
    - rewrite map_empty_union. reflexivity. }
  assert (Hetag : forall tok dom, self = Binstar_init tok dom ->
            req_headers (download_request self login package_name release
                           basename md5) !! "ETag"
            = if truthy md5 then md5 else None).
  { intros tok dom Hself. rewrite Hcall. destruct (truthy md5); [reflexivity |].
    subst self. unfold Binstar_init. cbn [session session_headers].
    destruct (truthy tok); by simplify_map_eq. }
  revert Hcall Hetag. unfold download_request. run. cbv zeta.
  intros Hcall Hetag.
  paths; new_events.
  all: refine (conj eq_refl (conj eq_refl (conj Hcall (conj Hetag (conj _ _)))));
    [ intros e' He' | intros res' Hres' ].
  all: simplify_eq; try (split; reflexivity).
  all: match goal with
       | H : server_is_newer _ = _ |- _ => rewrite H
       end; try (split; reflexivity).
  all: status_facts.
  all: refine (conj _ (conj _ _)); [ intros H304 | intros H302 | intros Hn302 Hn304 ].
  all: try (exfalso; lia).
  all: try match goal with
         | H : res_headers _ !! "location" = _ |- _ => rewrite H
         end.
  all: try (split; reflexivity).
  all: try (split; [reflexivity |]; eexists; split; [left; reflexivity | reflexivity]).
  all: repeat split; try reflexivity.
  all: intros [Hb | [kv Hb]]; simplify_eq; unfold dict_get in *; simplify_eq.
  all: eexists; reflexivity.
Qed.

Lemma string_app_inv_head (s x y : string) : s +:+ x = s +:+ y -> x = y.
Proof.
  induction s as [|c s IH]; cbn; intros H; [exact H | injection H; auto].
Qed.

Lemma stage_is_not_commit self l p r b l' p' r' b' :
  endpoint self "stage" l p r b <> endpoint self "commit" l' p' r' b'.
Proof.
  unfold endpoint. intros H. apply string_app_inv_head in H.
  cbn in H. discriminate H.
Qed.

(** C4, as amended: the response to the commit request decides the
    upload by the one status 200: with it, and with a version header that
    parses, [upload] returns the parsed body (or the decoding error, if the
    body is not JSON); with any other status, 2xx or not, [upload] raises,
    and the error is the typed one of the status whenever the body is not
    JSON or is a JSON object.  A version header that does not parse makes
    [upload] raise the error of [pv], whatever the status. *)
Theorem upload_commit_outcome self login package_name release basename
    distribution_type description md5 size attrs callback w :
  let run := upload self login package_name release basename distribution_type
               description md5 size attrs callback w in
  forall new creq res,
    log (snd run) = new ++ log w ->
    In (EHttp true creq (Ok res)) new ->
    url creq = endpoint self "commit" login package_name release basename ->
    match server_is_newer (api_version_of res) with
    | Raise e => fst run = Raise e
    | Ok _ =>
        (status_code res = 200 -> fst run = res_json res) /\
        (status_code res <> 200 ->
           is_ok (fst run) = false /\
           (json_body res = None \/ (exists kv, json_body res = Some (JObj kv)) ->
            exists msg,
              fst run = Raise (ApiError (ErrCls_of (status_code res)) msg
                                 (status_code res))))
    end.
Proof.
  run. cbv zeta. paths.
  all: intros new creq res Hlog Hin Hurl; pin_new Hlog; case_events Hin.
  all: simplify_eq; cbn [url session_request] in Hurl;
    try (exfalso; exact (stage_is_not_commit _ _ _ _ _ _ _ _ _ Hurl)).
  all: match goal with
       | H : server_is_newer (api_version_of ?r) = _
         |- context [server_is_newer (api_version_of ?r)] => rewrite H
       end; try reflexivity.
  all: status_facts.
  all: split; [intros H200 | intros Hn200; split; [| intros [Hb | [kv Hb]]]].
  all: try contradiction; try reflexivity.
  all: simplify_eq; unfold dict_get in *; simplify_eq.
  all: try (eexists; reflexivity).
  all: match goal with
       | H : json_body ?r = _ |- context [json_body ?r] => rewrite H
       end; reflexivity.
Qed.

(** The requests that [upload] makes outside the session are a function
    of the reply to the stage request, of the file object and of the seed:
    the client itself does not enter. *)
Lemma upload_bare_requests_planned login package_name release basename
    distribution_type description md5 size attrs callback :
  exists plan : result response -> file -> N -> list request,
    forall self w,
      bare_requests
        (log (snd (upload self login package_name release basename
                     distribution_type description md5 size attrs callback w)))
      = plan (server (log w)
                (stage_request self login package_name release basename
                   distribution_type description attrs))
             (fd w) (seed w)
        ++ bare_requests (log w).
Proof.
  exists (fun stage_reply f sd =>
    if negb (is_dict (match attrs with None => JObj [] | Some a => a end))
    then []
    else
      match stage_reply with
      | Raise _ => []
      | Ok res =>
          match server_is_newer (api_version_of res) with
          | Raise _ => []
          | Ok _ =>
              if negb (bool_decide (status_code res ∈ [200])) then []
              else
                match json_body res with
                | None => []
                | Some obj =>
                    match getitem obj "s3_url", getitem obj "s3form_data", md5 with
                    | Ok (JStr u), Ok s3data, None =>
                        match compute_hash f size with
                        | (Ok (_, b64md5, n), f') =>
                            match setitem s3data "Content-Length" (JNum n) with
                            | Ok s3data =>
                                match setitem s3data "Content-MD5" (JStr b64md5) with
                                | Ok s3data =>
                                    match stream_multipart sd s3data basename f'
                                            callback with
                                    | Ok (body, headers) =>
                                        [bare_request POST u headers (Some body)
                                           false (Some (10 * 60 * 60))]
                                    | Raise _ => []
                                    end
                                | Raise _ => []
                                end
                            | Raise _ => []
                            end
                        | (Raise _, _) => []
                        end
                    | _, _, _ => []
                    end
                end
          end
      end).
  intros self w. unfold stage_request. run. cbv zeta.
  paths; reflexivity.
Qed.

(** C10: the store request of [upload] and the second GET of [download]
    are made outside the session.  Whatever the client and the replies,
    [upload] makes at most three requests, of which the first and the third
    go through the session, to the stage and the commit endpoint, and the
    second, the store request, does not; it carries exactly the headers the
    multipart encoder returned.  [download] makes one request through the
    session and at most one more, which does not go through it and carries
    no header of the client.  So neither request has the token or the
    version header of the session; and two clients that differ in their
    token only, and get the same reply to their first request, make the
    same requests outside the session. *)
Theorem unauthenticated_requests_ignore_session tok1 tok2 dom login
    package_name release basename distribution_type description md5 size
    attrs callback known w :
  let c1 := Binstar_init tok1 dom in
  let c2 := Binstar_init tok2 dom in
  let up c := upload c login package_name release basename distribution_type
                description md5 size attrs callback w in
  let down c := download c login package_name release basename known w in
  server (log w) (stage_request c1 login package_name release basename
                    distribution_type description attrs)
  = server (log w) (stage_request c2 login package_name release basename
                      distribution_type description attrs) ->
  server (log w) (download_request c1 login package_name release basename known)
  = server (log w) (download_request c2 login package_name release basename known) ->
  bare_requests (log (snd (up c1))) = bare_requests (log (snd (up c2))) /\
  bare_requests (log (snd (down c1))) = bare_requests (log (snd (down c2))) /\
  (forall self w',
     exists new,
       log (snd (upload self login package_name release basename distribution_type
                   description md5 size attrs callback w')) = new ++ log w' /\
       (http_order new = [] \/ http_order new = [true] \/
        http_order new = [false; true] \/ http_order new = [true; false; true]) /\
       (forall req, In req (session_requests new) ->
          url req = endpoint self "stage" login package_name release basename \/
          url req = endpoint self "commit" login package_name release basename) /\
       (forall req, In req (bare_requests new) ->
          exists boundary fields f body,
            stream_multipart boundary fields basename f callback
              = Ok (body, req_headers req) /\
            data req = Some body /\ meth req = POST)) /\
  (forall self w',
     exists new,
       log (snd (download self login package_name release basename known w'))
       = new ++ log w' /\
       (http_order new = [true] \/ http_order new = [false; true]) /\
       session_requests new
       = [download_request self login package_name release basename known] /\
       (forall req, In req (bare_requests new) ->
          req_headers req = ∅ /\ meth req = GET /\ stream req = true)).
Proof.
  cbv zeta.
  generalize (Binstar_init tok1 dom) (Binstar_init tok2 dom). intros c1 c2.
  intros Hstage Hprimary.
  split; [| split; [| split]].
  - destruct (upload_bare_requests_planned login package_name release basename
                distribution_type description md5 size attrs callback)
      as [plan Hplan].
    rewrite !Hplan, Hstage. reflexivity.
  - revert Hprimary. unfold download_request. run. cbv zeta.
    intros <-. paths; reflexivity.
  - intros self w'. run. cbv zeta. paths; new_events; cbn [http_order].
    all: refine (conj _ (conj _ _)).
    all: try (intros req Hin; cbn [In] in Hin).
    all: repeat match goal with H : _ \/ _ |- _ => destruct H as [H | H] end.
    all: try contradiction; try subst req; cbn [url session_request].
    all: try (do 4 eexists; split; [eassumption | split; reflexivity]).
    all: first [ left; reflexivity | right; left; reflexivity | right; reflexivity
               | right; right; left; reflexivity | right; right; right; reflexivity ].
  - intros self w'. unfold download_request. run. cbv zeta.
    paths; new_events; cbn [http_order].
    all: refine (conj _ (conj eq_refl _)).
    all: try (intros req Hin; cbn [In] in Hin).
    all: repeat match goal with H : _ \/ _ |- _ => destruct H as [H | H] end.
    all: try contradiction; try subst req.
    all: first [ left; reflexivity | right; reflexivity | repeat split ].
Qed.

(** ** More of the client *)

(** The stage request is not the commit request. *)
Ltac stage_or_commit :=
  try match goal with
    | H : endpoint _ "commit" _ _ _ _ = endpoint _ "stage" _ _ _ _ |- _ =>
        exfalso; exact (stage_is_not_commit _ _ _ _ _ _ _ _ _ (eq_sym H))
    | H : endpoint _ "stage" _ _ _ _ = endpoint _ "commit" _ _ _ _ |- _ =>
        exfalso; exact (stage_is_not_commit _ _ _ _ _ _ _ _ _ H)
    end.

Lemma assoc_set_eq k v kv : assoc k (assoc_set k v kv) = Some v.
Proof.
  induction kv as [|[k' v'] kv IH]; cbn.
  - rewrite String.eqb_refl. reflexivity.
  - destruct (String.eqb k k') eqn:E; cbn; rewrite ?String.eqb_refl, ?E; auto.
Qed.

Lemma assoc_set_ne k k' v kv : k <> k' -> assoc k' (assoc_set k v kv) = assoc k' kv.
Proof.
  intros Hne. induction kv as [|[k0 v0] kv IH]; cbn.
  - destruct (String.eqb k' k) eqn:E; [apply String.eqb_eq in E; congruence | reflexivity].
  - destruct (String.eqb k k0) eqn:E; cbn.
    + apply String.eqb_eq in E. subst k0.
      destruct (String.eqb k' k) eqn:E'; [apply String.eqb_eq in E'; congruence | reflexivity].
    + destruct (String.eqb k' k0); auto.
Qed.

(** X1: [_check_response] returns exactly when the version header parses
    and the status is one of the allowed ones, whatever the body holds; it
    never prints, never sends anything and leaves the file object alone. *)
Theorem check_response_passes_iff_allowed res allowed w :
  let run := _check_response res allowed w in
  is_ok (fst run)
  = is_ok (server_is_newer (api_version_of res))
    && bool_decide (status_code res ∈ allowed) /\
  fd (snd run) = fd w /\ seed (snd run) = seed w /\
  exists new, log (snd run) = new ++ log w /\
    http_order new = [] /\ printed new = [] /\ fd_ops new = [].
Proof.
  run. cbv zeta.
  paths; cbn [negb andb] in *;
    (refine (conj _ (conj eq_refl (conj eq_refl _)));
     [ repeat match goal with
         | H : negb _ = true |- _ => apply negb_true_iff in H
         | H : negb _ = false |- _ => apply negb_false_iff in H
         end; congruence |]).
  all: new_events; cbn [http_order printed]; repeat split.
Qed.

(** X2: a response outside the allowed statuses whose version header parses
    and whose body is JSON but no object does not get the typed error of
    its status: the call of [get] on the parsed body raises
    [AttributeError]. *)
Theorem check_response_non_object_escapes res allowed j w :
  is_ok (server_is_newer (api_version_of res)) = true ->
  status_code res ∉ allowed ->
  json_body res = Some j ->
  is_dict j = false ->
  fst (_check_response res allowed w)
  = Raise (AttributeError "object has no attribute 'get'").
Proof.
  intros Hversion Hout Hbody Hdict. run. rewrite Hbody. unfold dict_get.
  paths; version_parsed; status_facts; try contradiction; try discriminate;
    reflexivity.
Qed.

(** What [upload] sends through the session carries the headers of the
    session and no other. *)
Lemma upload_session_requests_headers self login package_name release basename
    distribution_type description md5 size attrs callback w :
  exists new,
    log (snd (upload self login package_name release basename distribution_type
                description md5 size attrs callback w)) = new ++ log w /\
    forall req, In req (session_requests new) ->
      req_headers req = session_headers (session self).
Proof.
  run. cbv zeta. paths; new_events.
  all: intros req Hin; cbn [In] in Hin.
  all: repeat match goal with H : _ \/ _ |- _ => destruct H as [H | H] end.
  all: try contradiction; subst req; apply map_empty_union.
Qed.

(** What [download] sends through the session carries the headers of the
    session under the validator of the call. *)
Lemma download_session_requests_headers self login package_name release basename
    md5 w :
  exists new,
    log (snd (download self login package_name release basename md5 w))
    = new ++ log w /\
    forall req, In req (session_requests new) ->
      req_headers req =
        (if truthy md5 then {[ "ETag" := default "" md5 ]} else ∅)
          ∪ session_headers (session self).
Proof.
  run. cbv zeta. paths; new_events.
  all: intros req Hin; cbn [In] in Hin.
  all: repeat match goal with H : _ \/ _ |- _ => destruct H as [H | H] end.
  all: try contradiction; subst req; reflexivity.
Qed.

Lemma constructed_session_headers tok dom :
  session_headers (session (Binstar_init tok dom)) !! "x-binstar-api-version"
  = Some __version__ /\
  session_headers (session (Binstar_init tok dom)) !! "Authorization"
  = if truthy tok then Some ("token " +:+ default "" tok) else None.
Proof.
  unfold Binstar_init. cbn [session session_headers].
  destruct (truthy tok); split; by simplify_map_eq.
Qed.

(** X3: every request that [upload] or [download] makes through the
    session of a client built by the constructor carries the version of the
    client, and carries the token exactly when the constructor was given a
    non-empty one. *)
Theorem constructed_client_requests_carry_token tok dom login package_name
    release basename distribution_type description md5 size attrs callback
    known w :
  let self := Binstar_init tok dom in
  let up := upload self login package_name release basename distribution_type
              description md5 size attrs callback w in
  let down := download self login package_name release basename known w in
  forall new req,
    log (snd up) = new ++ log w \/ log (snd down) = new ++ log w ->
    In req (session_requests new) ->
    req_headers req !! "x-binstar-api-version" = Some __version__ /\
    req_headers req !! "Authorization"
    = if truthy tok then Some ("token " +:+ default "" tok) else None.
Proof.
  cbv zeta. intros new req Hlog Hin.
  destruct (constructed_session_headers tok dom) as [Hversion Htoken].
  destruct Hlog as [Hlog | Hlog].
  - destruct (upload_session_requests_headers (Binstar_init tok dom) login
                package_name release basename distribution_type description
                md5 size attrs callback w) as (new' & Hlog' & Hall).
    rewrite Hlog' in Hlog. apply app_inv_tail in Hlog. subst new'.
    rewrite (Hall req Hin). split; assumption.
  - destruct (download_session_requests_headers (Binstar_init tok dom) login
                package_name release basename known w) as (new' & Hlog' & Hall).
    rewrite Hlog' in Hlog. apply app_inv_tail in Hlog. subst new'.
    rewrite (Hall req Hin).
    destruct (truthy known).
    + rewrite !lookup_union_r by (by simplify_map_eq). split; assumption.
    + rewrite !map_empty_union. split; assumption.
Qed.

(** X4: whatever the peers answer, [upload] talks to them in one fixed
    order and never twice: nothing at all, or the stage request alone, or
    stage then store, or stage, store and commit. *)
Theorem upload_protocol_is_linear self login package_name release basename
    distribution_type description md5 size attrs callback w :
  let stage := stage_request self login package_name release basename
                 distribution_type description attrs in
  let run := upload self login package_name release basename distribution_type
               description md5 size attrs callback w in
  exists new, log (snd run) = new ++ log w /\
    ((http_order new = [] /\ session_requests new = [] /\ bare_requests new = []) \/
     (http_order new = [true] /\ session_requests new = [stage] /\
      bare_requests new = []) \/
     (exists u body headers,
        http_order new = [false; true] /\ session_requests new = [stage] /\
        bare_requests new = [store_request u body headers]) \/
     (exists u body headers dist_id,
        http_order new = [true; false; true] /\
        session_requests new =
          [commit_request self login package_name release basename dist_id; stage] /\
        bare_requests new = [store_request u body headers])).
Proof.
  unfold stage_request, commit_request, store_request. run. cbv zeta.
  paths; new_events; cbn [http_order].
  all: first
    [ left; by repeat split
    | right; left; by repeat split
    | right; right; left; do 3 eexists; by repeat split
    | right; right; right; do 4 eexists; by repeat split ].
Qed.

(** X8: [upload] prints in one case only, a store response other than 201,
    and then prints the text of that response and two empty lines. *)
Theorem upload_prints_only_on_store_failure self login package_name release
    basename distribution_type description md5 size attrs callback w :
  let run := upload self login package_name release basename distribution_type
               description md5 size attrs callback w in
  exists new, log (snd run) = new ++ log w /\
    (printed new = [] \/
     exists sreq s3res,
       In (EHttp false sreq (Ok s3res)) new /\ status_code s3res <> 201 /\
       printed new = [""; ""; text s3res]) /\
    (forall sreq s3res,
       In (EHttp false sreq (Ok s3res)) new -> status_code s3res <> 201 ->
       printed new = [""; ""; text s3res]).
Proof.
  run. cbv zeta.
  paths; new_events; cbn [printed]; status_facts.
  all: split;
    [ first [ left; reflexivity
            | right; do 2 eexists; split; [pick_event | split; [eassumption | reflexivity]] ]
    | intros sreq s3res Hin Hstatus; case_events Hin; simplify_eq;
      first [ reflexivity | contradiction ] ].
Qed.

(** X5: [upload] returns a value only when no digest was supplied and all
    three phases went through: the stage response was 200 with the storage
    URL, the form fields and the distribution id, the store response was
    201 and the commit response was 200; the value is the parsed body of the
    commit response.  The body stored was encoded from the form fields of
    the grant with [Content-Length] and [Content-MD5] set to what the hasher
    returned, and from the file object as the hasher left it. *)
Theorem upload_returns_after_three_phases self login package_name release
    basename distribution_type description md5 size attrs callback w :
  let stage := stage_request self login package_name release basename
                 distribution_type description attrs in
  let run := upload self login package_name release basename distribution_type
               description md5 size attrs callback w in
  forall j new,
    fst run = Ok j ->
    log (snd run) = new ++ log w ->
    md5 = None /\
    exists res obj u fields dist_id hex b64 n f' body headers s3res cres,
      server (log w) stage = Ok res /\ status_code res = 200 /\
      json_body res = Some obj /\
      getitem obj "s3_url" = Ok (JStr u) /\
      getitem obj "s3form_data" = Ok (JObj fields) /\
      getitem obj "dist_id" = Ok dist_id /\
      compute_hash (fd w) size = (Ok (hex, b64, n), f') /\
      stream_multipart (seed w)
        (JObj (assoc_set "Content-MD5" (JStr b64)
                 (assoc_set "Content-Length" (JNum n) fields)))
        basename f' callback = Ok (body, headers) /\
      bare_requests new = [store_request u body headers] /\
      session_requests new =
        [commit_request self login package_name release basename dist_id; stage] /\
      In (EHttp false (store_request u body headers) (Ok s3res)) new /\
      status_code s3res = 201 /\
      In (EHttp true
            (commit_request self login package_name release basename dist_id)
            (Ok cres)) new /\
      status_code cres = 200 /\ json_body cres = Some j.
Proof.
  unfold stage_request, commit_request, store_request. run. cbv zeta.
  paths; intros j' new Hok Hlog; try discriminate Hok.
  all: pin_new Hlog; status_facts.
  all: repeat match goal with
         | H : setitem ?o _ _ = Ok _ |- _ =>
             is_var o; destruct o; try discriminate H; cbn [setitem] in H
         end; status_facts.
  all: split; [reflexivity |].
  all: do 13 eexists.
  all: refine (conj _ (conj _ (conj _ (conj _ (conj _ (conj _ (conj _ (conj _
         (conj _ (conj _ (conj _ (conj _ (conj _ (conj _ _))))))))))))));
    first [ reflexivity | eassumption | pick_event ].
Qed.

(** A [dict] that has one key and lacks another raises [KeyError] for the
    one it lacks. *)
Lemma getitem_missing o k k' v e :
  getitem o k' = Ok v -> getitem o k = Raise e -> e = KeyError k.
Proof.
  destruct o as [| | | | |kv]; cbn; try discriminate.
  intros _. destruct (assoc k kv); congruence.
Qed.

(** X6: a grant without the distribution id is found out late: the file is
    stored first, and only after a 201 from the store does [upload] raise
    [KeyError] for [dist_id]; the commit request is never made. *)
Theorem upload_missing_dist_id_fails_after_store self login package_name release
    basename distribution_type description md5 size attrs callback w :
  let stage := stage_request self login package_name release basename
                 distribution_type description attrs in
  let run := upload self login package_name release basename distribution_type
               description md5 size attrs callback w in
  forall new res obj sreq s3res,
    log (snd run) = new ++ log w ->
    In (EHttp true stage (Ok res)) new ->
    json_body res = Some obj ->
    is_ok (getitem obj "dist_id") = false ->
    In (EHttp false sreq (Ok s3res)) new ->
    status_code s3res = 201 ->
    fst run = Raise (KeyError "dist_id") /\
    http_order new = [false; true] /\
    In BodyRead (fd_ops new).
Proof.
  unfold stage_request. run. cbv zeta. paths.
  all: intros new res obj sreq s3res Hlog Hstage Hbody Hdist Hstore Hstatus.
  all: pin_new Hlog; case_events Hstage; case_events Hstore.
  all: simplify_eq; status_facts; try contradiction.
  all: try match goal with
         | H : getitem ?o _ = _, H' : json_body _ = Some ?o |- _ =>
             rewrite H' in *; simplify_eq
         end.
  all: try match goal with
         | H : getitem ?o "dist_id" = Ok _ |- _ =>
             rewrite H in Hdist; discriminate Hdist
         end.
  all: stage_or_commit.
  all: match goal with
       | H : getitem ?o "dist_id" = Raise ?e, H' : getitem ?o "s3_url" = Ok _ |- _ =>
           rewrite (getitem_missing _ _ _ _ _ H' H)
       end.
  all: cbn [http_order fd_ops]; repeat split; pick_event.
Qed.

(** X7: a stage response of status 200 whose version header parses and
    that is no grant is refused at once: a body that is not JSON, or one
    without the storage URL or without the form fields, makes [upload] raise
    the error of that lookup with the stage request as the only request made
    and the file object untouched. *)
Theorem upload_malformed_grant_fails_fast self login package_name release
    basename distribution_type description md5 size attrs callback w :
  let stage := stage_request self login package_name release basename
                 distribution_type description attrs in
  let run := upload self login package_name release basename distribution_type
               description md5 size attrs callback w in
  forall new res e,
    log (snd run) = new ++ log w ->
    In (EHttp true stage (Ok res)) new ->
    is_ok (server_is_newer (api_version_of res)) = true ->
    status_code res = 200 ->
    (json_body res = None /\ e = ValueError "No JSON object could be decoded") \/
    (exists obj, json_body res = Some obj /\
       (getitem obj "s3_url" = Raise e \/
        (is_ok (getitem obj "s3_url") = true /\
         getitem obj "s3form_data" = Raise e))) ->
    fst run = Raise e /\
    http_order new = [true] /\ fd_ops new = [] /\ fd (snd run) = fd w.
Proof.
  unfold stage_request. run. cbv zeta. paths.
  all: intros new res err Hlog Hstage Hversion Hstatus Hgrant.
  all: pin_new Hlog; case_events Hstage.
  all: simplify_eq; version_parsed; status_facts; try contradiction.
  all: stage_or_commit.
  all: destruct Hgrant as [[Hbody ->] | (obj & Hbody & [Hurl | [Hurl Hdata]])];
    simplify_eq.
  all: try (rewrite Hurl in *; simplify_eq).
  all: try (rewrite Hdata in *; simplify_eq).
  all: try match goal with
         | H : getitem ?o ?k = Raise _, H' : is_ok (getitem ?o ?k) = true |- _ =>
             rewrite H in H'; discriminate H'
         end.
  all: cbn [http_order fd_ops]; repeat split.
Qed.

(** X9: the plain queries and [add_release] are each one request through
    the session, to the endpoint of their arguments; they raise what the
    transport or the version test raises, and otherwise return the parsed
    body exactly on status 200.  An empty login is no login for [user] and
    [user_packages], and [distribution] without a basename asks for the
    basename [None]. *)
Theorem queries_ask_once self login package_name version owner requirements
    announce description basename :
  Forall (fun '(q, req) => asks_once q req)
    [ (authentication self, query_request self (domain self +:+ "/authentication"));
      (authentications self, query_request self (domain self +:+ "/authentications"));
      (user self None, query_request self (domain self +:+ "/user"));
      (user self (Some ""%string), query_request self (domain self +:+ "/user"));
      (user self (Some login),
       query_request self
         (if String.eqb login "" then domain self +:+ "/user"
          else domain self +:+ "/user/" +:+ login));
      (user_packages self None, query_request self (domain self +:+ "/packages"));
      (user_packages self (Some ""%string),
       query_request self (domain self +:+ "/packages"));
      (user_packages self (Some login),
       query_request self
         (if String.eqb login "" then domain self +:+ "/packages"
          else domain self +:+ "/packages/" +:+ login));
      (package self login package_name,
       query_request self
         (domain self +:+ "/package/" +:+ login +:+ "/" +:+ package_name));
      (package_collaborators self owner package_name,
       query_request self
         (domain self +:+ "/packages/" +:+ owner +:+ "/" +:+ package_name
            +:+ "/collaborators"));
      (release self login package_name version,
       query_request self
         (domain self +:+ "/release/" +:+ login +:+ "/" +:+ package_name
            +:+ "/" +:+ version));
      (distribution self login package_name version (Some basename),
       query_request self (endpoint self "dist" login package_name version basename));
      (distribution self login package_name version None,
       query_request self (endpoint self "dist" login package_name version "None"));
      (add_release self login package_name version requirements announce description,
       session_request self POST
         (domain self +:+ "/release/" +:+ login +:+ "/" +:+ package_name
            +:+ "/" +:+ version) ∅
         (Some (jencode (JObj [("requirements", requirements);
                              ("announce", announce);
                              ("description", description)]))) true) ].
Proof.
  repeat apply List.Forall_cons; try apply List.Forall_nil.
  all: lazy beta iota; unfold asks_once, query_request; intros w; run_api.
  all: unfold str_of; cbn [truthy default from_option id].
  all: try match goal with
         | |- context [String.eqb ?l ""] => is_var l; destruct (String.eqb l "")
         end.
  all: cbn [negb String.eqb].
  all: cbv zeta; paths; new_events; cbn [printed].
  all: refine (conj eq_refl (conj eq_refl (conj eq_refl (conj eq_refl (conj _ _))))).
  all: try (intros e' He'; simplify_eq; reflexivity).
  all: intros res' Hres'; simplify_eq.
  all: match goal with
       | H : server_is_newer _ = _ |- _ => rewrite H
       end; try reflexivity.
  all: status_facts; split; intros Hstatus;
    first [ contradiction | reflexivity | idtac ].
  all: match goal with
       | H : json_body ?r = _ |- context [json_body ?r] => rewrite H
       end; reflexivity.
Qed.

(** X10: whatever comes back, [authenticate] makes exactly one request,
    through the session, and that request carries the password in the Basic
    [Authorization] header, never the token the session holds; it keeps the
    version header of the session.  Its payload gives [created_with] as
    null whatever the caller passes, and the host name as [unknown] where
    the platform has no [uname]. *)
Theorem authenticate_asks_once self username password application
    application_url for_user scopes created_with max_age strength w :
  let req := authenticate_request self username password application
               application_url for_user scopes max_age strength in
  let run := authenticate self username password application application_url
               for_user scopes created_with max_age strength w in
  (exists new, log (snd run) = new ++ log w /\
     http_order new = [true] /\ session_requests new = [req] /\
     printed new = [] /\ fd (snd run) = fd w) /\
  req_headers req !! "Authorization"
  = Some ("Basic " +:+ b64encode (username +:+ ":" +:+ password)) /\
  req_headers req !! "x-binstar-api-version"
  = session_headers (session self) !! "x-binstar-api-version" /\
  (forall e, server (log w) req = Raise e -> fst run = Raise e) /\
  (forall res, server (log w) req = Ok res -> status_code res <> 200 ->
     is_ok (fst run) = false).
Proof.
  cbv zeta. unfold authenticate_request.
  refine (conj _ (conj _ (conj _ _))).
  - run_api. cbv zeta. destruct uname; cbn [default from_option id].
    all: paths; new_events; cbn [http_order printed]; repeat split.
  - unfold with_basic_auth. cbn [req_headers]. apply lookup_insert_eq.
  - unfold with_basic_auth, session_request. cbn [req_headers].
    rewrite lookup_insert_ne by discriminate. rewrite map_empty_union. reflexivity.
  - run_api. cbv zeta. destruct uname; cbn [default from_option id].
    all: paths; (split; [intros e' He' | intros res' Hres' Hstatus]).
    all: simplify_eq; status_facts; try contradiction; reflexivity.
Qed.

(** What [authenticate] returns beside the token is the client with the
    token put into the headers of its session. *)
Lemma authenticate_client self username password application application_url
    for_user scopes created_with max_age strength w tok c' :
  fst (authenticate self username password application application_url
         for_user scopes created_with max_age strength w) = Ok (tok, c') ->
  c' = set_token self tok.
Proof.
  run_api. cbv zeta. paths; intros Hok; simplify_eq; reflexivity.
Qed.

(** X11: when [authenticate] returns, the response had status 200 and a
    JSON object whose [token] item is the value returned; the session of the
    client then holds that token in its [Authorization] header and its other
    headers as before, while the [token] attribute of the client stays what
    the constructor was given. *)
Theorem authenticate_returns_token self username password application
    application_url for_user scopes created_with max_age strength w :
  let req := authenticate_request self username password application
               application_url for_user scopes max_age strength in
  let run := authenticate self username password application application_url
               for_user scopes created_with max_age strength w in
  forall tok c',
    fst run = Ok (tok, c') ->
    (exists res obj,
       server (log w) req = Ok res /\ status_code res = 200 /\
       json_body res = Some obj /\ getitem obj "token" = Ok tok) /\
    session_headers (session c') !! "Authorization"
    = Some ("token " +:+ format_s tok) /\
    (forall k, k <> "Authorization"%string ->
       session_headers (session c') !! k = session_headers (session self) !! k) /\
    token c' = token self /\ domain c' = domain self.
Proof.
  cbv zeta. intros tok c' Hok.
  pose proof (authenticate_client _ _ _ _ _ _ _ _ _ _ _ _ _ Hok) as ->.
  split; [| unfold set_token; cbn [session session_headers token domain];
            repeat split;
            [ apply lookup_insert_eq
            | intros k Hk; apply lookup_insert_ne; congruence ] ].
  revert Hok. unfold authenticate_request. run_api. cbv zeta.
  destruct uname; cbn [default from_option id].
  all: paths; intros Hok; simplify_eq; status_facts.
  all: do 2 eexists;
    refine (conj eq_refl (conj _ (conj _ _))); eassumption.
Qed.

(** X12: the token [authenticate] returned is the one every later request of
    [upload] and [download] through the session of the returned client
    carries, whatever token the client had before. *)
Theorem authenticate_then_transfer self username password application
    application_url for_user scopes created_with max_age strength w
    login package_name release basename distribution_type description md5 size
    attrs callback known :
  forall tok c' w' new req,
    authenticate self username password application application_url
      for_user scopes created_with max_age strength w = (Ok (tok, c'), w') ->
    log (snd (upload c' login package_name release basename distribution_type
                description md5 size attrs callback w')) = new ++ log w' \/
    log (snd (download c' login package_name release basename known w'))
    = new ++ log w' ->
    In req (session_requests new) ->
    req_headers req !! "Authorization" = Some ("token " +:+ format_s tok).
Proof.
  intros tok c' w' new req Hauth Hlog Hin.
  assert (Hc : c' = set_token self tok).
  { eapply authenticate_client. rewrite Hauth. reflexivity. }
  subst c'.
  assert (Hheader : session_headers (session (set_token self tok)) !! "Authorization"
                    = Some ("token " +:+ format_s tok))
    by apply lookup_insert_eq.
  destruct Hlog as [Hlog | Hlog].
  - destruct (upload_session_requests_headers (set_token self tok) login
                package_name release basename distribution_type description
                md5 size attrs callback w') as (new' & Hlog' & Hall).
    rewrite Hlog' in Hlog. apply app_inv_tail in Hlog. subst new'.
    rewrite (Hall req Hin). exact Hheader.
  - destruct (download_session_requests_headers (set_token self tok) login
                package_name release basename known w') as (new' & Hlog' & Hall).
    rewrite Hlog' in Hlog. apply app_inv_tail in Hlog. subst new'.
    rewrite (Hall req Hin).
    destruct (truthy known).
    + rewrite lookup_union_r by (by simplify_map_eq). exact Hheader.
    + rewrite map_empty_union. exact Hheader.
Qed.

(** X13: [list_scopes] goes around the session: its one request carries no
    header of the client, so neither the token nor the version, and two
    clients of the same domain get the same run from it. *)
Theorem list_scopes_ignores_session c1 c2 w :
  domain c1 = domain c2 ->
  list_scopes c1 w = list_scopes c2 w /\
  exists new, log (snd (list_scopes c1 w)) = new ++ log w /\
    http_order new = [false] /\
    bare_requests new = [bare_request GET (domain c1 +:+ "/scopes") ∅ None false None].
Proof.
  intros Hdomain. split.
  - unfold list_scopes. rewrite Hdomain. reflexivity.
  - run_api. cbv zeta. paths; new_events; cbn [http_order]; repeat split.
Qed.

Lemma json_truthy_assoc_set k v kv : json_truthy (JObj (assoc_set k v kv)) = true.
Proof.
  destruct kv as [|[k' v'] kv]; cbn; [reflexivity |].
  destruct (String.eqb k k'); reflexivity.
Qed.

(** X14: [add_package] sends the caller's [attrs] as [public_attrs] with
    [summary] and [license] set from the arguments of those names, over
    whatever [attrs] held under these keys, and with every other key as it
    was; [attrs] that is empty or false in any type counts as the empty
    dict, and [attrs] that is true and no dict raises [TypeError] before
    anything is sent. *)
Theorem add_package_public_attrs self login package_name summary license public
    publish license_url attrs w :
  let run := add_package self login package_name summary license public publish
               license_url attrs w in
  if json_truthy attrs && negb (is_dict attrs)
  then run = (Raise (TypeError "object does not support item assignment"), w)
  else
    exists items new,
      log (snd run) = new ++ log w /\
      session_requests new =
        [session_request self POST
           (domain self +:+ "/package/" +:+ login +:+ "/" +:+ package_name) ∅
           (Some (jencode
                    (JObj [("public", JBool (json_truthy public));
                           ("publish", JBool (json_truthy publish));
                           ("public_attrs", JObj items)]))) true] /\
      bare_requests new = [] /\
      assoc "summary" items = Some summary /\
      assoc "license" items = Some (JObj [("name", license); ("url", license_url)]) /\
      (forall k, k <> "summary"%string -> k <> "license"%string ->
         assoc k items = match attrs with
                         | JObj kv => assoc k kv
                         | _ => None
                         end).
Proof.
  cbv zeta. destruct (json_truthy attrs && negb (is_dict attrs)) eqn:E.
  - apply andb_true_iff in E. destruct E as [Htruthy Hdict].
    unfold add_package. rewrite Htruthy.
    destruct attrs; try discriminate Hdict; reflexivity.
  - assert (Hattrs : exists kv,
              (if json_truthy attrs then attrs else JObj []) = JObj kv /\
              forall k, assoc k kv = match attrs with
                                     | JObj kv' => assoc k kv'
                                     | _ => None
                                     end).
    { destruct attrs as [| b | n | s | [|x l] | [|x kv]]; cbn in E |- *.
      all: repeat match goal with
             | H : context [if ?c then _ else _] |- _ => destruct c eqn:?
             | |- context [if ?c then _ else _] => destruct c eqn:?
             | H : context [negb ?c] |- _ => destruct c eqn:?; cbn in H
             end.
      all: try discriminate E.
      all: eexists; split; reflexivity. }
    destruct Hattrs as (kv & Hkv & Hsame).
    unfold add_package. rewrite Hkv. cbn [setitem lift bind].
    unfold bind at 1 2. cbn [lift setitem]. rewrite json_truthy_assoc_set.
    run. cbv zeta. paths; eexists; new_events.
    all: refine (conj eq_refl (conj eq_refl (conj _ (conj _ _)))).
    all: try (intros k Hs Hl; rewrite !assoc_set_ne by congruence; apply Hsame).
    all: try apply assoc_set_eq.
    all: rewrite assoc_set_ne by discriminate; apply assoc_set_eq.
Qed.

End Client.

(** ** The client in the concrete environment *)

Abbreviation example_server_is_newer :=
  (server_is_newer example_pv example_version_gt).

Abbreviation example_check_response :=
  (_check_response example_pv example_version_gt example_STATUS_CODES).

Abbreviation example_download :=
  (download example_pv example_version_gt example_STATUS_CODES).

Abbreviation example_upload :=
  (upload example_pv example_version_gt example_STATUS_CODES example_jencode
     example_compute_hash example_stream_multipart).

Abbreviation api := "https://api.binstar.org"%string.

(** Versions as [example_pv] reads them. *)
Example example_pv_reads :
  example_pv "0.4.2" = Ok [0; 4; 2]%N /\
  example_pv "0.10" = Ok [0; 10]%N /\
  example_pv "0.5.0rc1" = Raise (ValueError "invalid literal for int() with base 10: '0rc1'") /\
  example_server_is_newer "0.10" = Ok true /\
  example_server_is_newer "0.4.2" = Ok false /\
  example_server_is_newer "0.2.1" = Ok false.
Proof. vm_compute. repeat split. Qed.

(** Scenario A of the transfer: stage, store and commit succeed, and the
    upload returns the metadata of the commit reply; the file object has been
    hashed, then read by the body. *)
Example upload_scenario_A :
  let run := example_upload example_service (Binstar_init (Some "s3cr3t") api)
               "alice" "pkg" "1.0" "pkg-1.0.tar.gz" "sdist" "" None None None None
               (fresh empty_file) in
  fst run = Ok example_metadata /\
  fd_ops (log (snd run)) = [BodyRead; HashRead None] /\
  fields_set (log (snd run))
  = [("Content-MD5", JStr "1B2M2Y8AsgTpgAmY7PhCfg=="); ("Content-Length", JNum 0)] /\
  map url (bare_requests (log (snd run))) = ["https://storage.example/bucket"%string] /\
  map url (session_requests (log (snd run))) =
    ["https://api.binstar.org/commit/alice/pkg/1.0/pkg-1.0.tar.gz"%string;
     "https://api.binstar.org/stage/alice/pkg/1.0/pkg-1.0.tar.gz"%string].
Proof. vm_compute. repeat split. Qed.

(** The failing input of C1: the same upload with the digest supplied. *)
Example upload_supplied_digest_unbound :
  let run := example_upload example_service (Binstar_init (Some "s3cr3t") api)
               "alice" "pkg" "1.0" "pkg-1.0.tar.gz" "sdist" ""
               (Some "1B2M2Y8AsgTpgAmY7PhCfg==") (Some 0) None None
               (fresh empty_file) in
  fst run = Raise (UnboundLocalError "b64md5") /\
  bare_requests (log (snd run)) = [].
Proof. vm_compute. repeat split. Qed.

(** A body that is JSON but no object escapes the classification: the
    [else:] branch calls [get] on it. *)
Example check_response_non_object_body :
  fst (example_check_response (response_of 500 (Some (JArr []))) [200] (fresh empty_file))
  = Raise (AttributeError "object has no attribute 'get'").
Proof. vm_compute. reflexivity. Qed.

(** ** The properties at work in the concrete environment *)

(** C2 at a store phase that answers 500. *)
Lemma upload_store_failure_witness :
  let server := scripted [reply 200 (Some example_grant); reply 500 None] in
  let self := Binstar_init (Some "s3cr3t") api in
  let run := example_upload server self "alice" "pkg" "1.0" "pkg-1.0.tar.gz"
               "sdist" "" None None None None (fresh empty_file) in
  fst run = Raise (ApiError BinstarError (JStr "Error uploading to s3") 500) /\
  map url (bare_requests (log (snd run))) = ["https://storage.example/bucket"%string] /\
  session_requests (log (snd run)) =
    [stage_request example_jencode self "alice" "pkg" "1.0" "pkg-1.0.tar.gz"
       "sdist" "" None].
Proof.
  cbv zeta.
  set (server := scripted [reply 200 (Some example_grant); reply 500 None]).
  set (self := Binstar_init (Some "s3cr3t") api).
  set (run := example_upload server self "alice" "pkg" "1.0" "pkg-1.0.tar.gz"
               "sdist" "" None None None None (fresh empty_file)).
  destruct (upload_store_failure_is_final example_pv example_version_gt
              example_STATUS_CODES example_jencode example_compute_hash
              example_stream_multipart server self "alice" "pkg" "1.0"
              "pkg-1.0.tar.gz" "sdist" "" None None None None (fresh empty_file)
              (log (snd run))
              (bare_request POST "https://storage.example/bucket"
                 {[ "Content-Type" := "multipart/form-data; boundary=7" ]}
                 (Some "--7--") false (Some 36000))
              (response_of 500 None))
    as (Hraise & Hbare & Hsession).
  - vm_compute. reflexivity.
  - vm_compute. pick_event.
  - vm_compute. discriminate.
  - fold run in Hraise, Hbare, Hsession.
    split; [exact Hraise | split; [rewrite Hbare; reflexivity | exact Hsession]].
Defined.

(** C5 at a stage phase that answers 500: the upload raises and the file
    object is as it was. *)
Lemma upload_reads_after_stage_witness :
  let server := scripted [reply 500 None] in
  let run := example_upload server (Binstar_init (Some "s3cr3t") api)
               "alice" "pkg" "1.0" "pkg-1.0.tar.gz" "sdist" "" None None None None
               (fresh part_read_file) in
  is_ok (fst run) = false /\ fd (snd run) = part_read_file.
Proof.
  cbv zeta.
  destruct (upload_reads_after_stage example_pv example_version_gt
              example_STATUS_CODES example_jencode example_compute_hash
              example_stream_multipart (scripted [reply 500 None])
              (Binstar_init (Some "s3cr3t") api)
              "alice" "pkg" "1.0" "pkg-1.0.tar.gz" "sdist" "" None None None
              (fresh part_read_file))
    as (new & _ & _ & Hfail).
  destruct (Hfail (response_of 500 None)) as (Hraise & _ & Hfd).
  - reflexivity.
  - cbn. lia.
  - split; [exact Hraise | exact Hfd].
Defined.

(** C6 on a file read up to its third byte, on a pipe and on a stream
    that does not seek from its end. *)
Lemma upload_size_by_seek_witness :
  let server := scripted [reply 200 (Some example_grant)] in
  let self := Binstar_init (Some "s3cr3t") api in
  let run f := example_upload server self "alice" "pkg" "1.0" "pkg-1.0.tar.gz"
                 "sdist" "" (Some "6Y5Hd4vbEXdknDo3DiTiaw==") None None None (fresh f) in
  (fd_ops (log (snd (run part_read_file)))
   = [Seek 2 SEEK_SET; Tell; Seek 0 SEEK_END; Tell] /\
   fields_set (log (snd (run part_read_file))) = [("Content-Length", JNum (6 - 2))] /\
   fd (snd (run part_read_file)) = part_read_file) /\
  (fst (run pipe) = Raise (IOError "[Errno 29] Illegal seek") /\
   fd_ops (log (snd (run pipe))) = [Tell] /\
   fields_set (log (snd (run pipe))) = [] /\
   fd (snd (run pipe)) = pipe) /\
  (fst (run gzip_stream) = Raise (ValueError "Seek from end not supported") /\
   fd_ops (log (snd (run gzip_stream))) = [Seek 0 SEEK_END; Tell] /\
   fields_set (log (snd (run gzip_stream))) = [] /\
   fd (snd (run gzip_stream)) = gzip_stream) /\
  bare_requests (log (snd (run part_read_file))) = [].
Proof.
  cbv zeta.
  set (server := scripted [reply 200 (Some example_grant)]).
  set (self := Binstar_init (Some "s3cr3t") api).
  pose (run f := example_upload server self "alice" "pkg" "1.0" "pkg-1.0.tar.gz"
                   "sdist" "" (Some "6Y5Hd4vbEXdknDo3DiTiaw==") None None None (fresh f)).
  pose proof (fun f Hlog Hin =>
    upload_size_by_seek example_pv example_version_gt
      example_STATUS_CODES example_jencode example_compute_hash
      example_stream_multipart server self "alice" "pkg" "1.0"
      "pkg-1.0.tar.gz" "sdist" "" "6Y5Hd4vbEXdknDo3DiTiaw==" None None
      (fresh f) (response_of 200 (Some example_grant)) example_grant
      (JStr "https://storage.example/bucket")
      (JObj [("key", JStr "dist/pkg-1.0.tar.gz")])
      (log (snd (run f))) Hlog Hin eq_refl eq_refl eq_refl eq_refl eq_refl) as Hthm.
  assert (Hlog : forall f, log (snd (run f)) = log (snd (run f)) ++ log (fresh f))
    by (intros f; symmetry; apply app_nil_r).
  destruct (Hthm part_read_file (Hlog part_read_file)) as [Hbare Hfile]; [vm_compute; pick_event |].
  destruct (Hthm pipe (Hlog pipe)) as [_ Hpipe]; [vm_compute; pick_event |].
  destruct (Hthm gzip_stream (Hlog gzip_stream)) as [_ Hgzip]; [vm_compute; pick_event |].
  exact (conj Hfile (conj Hpipe (conj Hgzip Hbare))).
Defined.

(** C6 fails as stated: on a stream without random access the upload ends
    with the error of the stream, which is none of the client's own errors;
    and so it does, with another error, on a stream that tells its position
    and cannot seek from its end. *)
Lemma upload_size_by_seek_counterexample :
  let server := scripted [reply 200 (Some example_grant)] in
  let run f := example_upload server (Binstar_init (Some "s3cr3t") api)
                 "alice" "pkg" "1.0" "pkg-1.0.tar.gz" "sdist" ""
                 (Some "6Y5Hd4vbEXdknDo3DiTiaw==") None None None (fresh f) in
  tell_raises pipe = Some (IOError "[Errno 29] Illegal seek") /\
  fst (run pipe) = Raise (IOError "[Errno 29] Illegal seek") /\
  is_binstar_error (fst (run pipe)) = false /\
  fst (run gzip_stream) = Raise (ValueError "Seek from end not supported") /\
  is_binstar_error (fst (run gzip_stream)) = false.
Proof. vm_compute. repeat split. Qed.

(** C8 on a 404 that names its error and on a 401 that does not. *)
Lemma check_response_classifies_witness :
  fst (example_check_response
         (response_of 404 (Some (JObj [("error", JStr "no such package")])))
         [200] (fresh empty_file))
  = Raise (ApiError NotFound (JStr "no such package") 404) /\
  fst (example_check_response (versioned "0.10" 401 None) [200] (fresh empty_file))
  = Raise (ApiError Unauthorized
             (JStr "Unauthorized: No permission -- see authorization schemes (status code: 401)")
             401).
Proof.
  split.
  - destruct (check_response_classifies example_pv example_version_gt
                example_STATUS_CODES example_jencode example_compute_hash
                example_stream_multipart example_service
                (response_of 404 (Some (JObj [("error", JStr "no such package")])))
                [200] (fresh empty_file)) as (H & _).
    + reflexivity.
    + intros H%list_elem_of_singleton. discriminate H.
    + right. eexists. reflexivity.
    + exact H.
  - destruct (check_response_classifies example_pv example_version_gt
                example_STATUS_CODES example_jencode example_compute_hash
                example_stream_multipart example_service (versioned "0.10" 401 None)
                [200] (fresh empty_file)) as (H & _).
    + reflexivity.
    + intros H%list_elem_of_singleton. discriminate H.
    + left. reflexivity.
    + exact H.
Defined.

(** C9 at the failing input: a response of an allowed status whose version
    header has a part that is no number; and at a server that is newer. *)
Lemma check_response_version_witness :
  example_check_response (versioned "0.5.0rc1" 200 None) [200] (fresh empty_file)
  = (Raise (ValueError "invalid literal for int() with base 10: '0rc1'"),
     fresh empty_file) /\
  example_check_response (versioned "0.5.0rc1" 404 None) [200] (fresh empty_file)
  = (Raise (ValueError "invalid literal for int() with base 10: '0rc1'"),
     fresh empty_file) /\
  log (snd (example_check_response (versioned "0.10" 200 None) [200] (fresh empty_file)))
  = [EWarn (version_warning "0.10")] /\
  is_ok (fst (example_check_response (versioned "0.10" 200 None) [200] (fresh empty_file)))
  = true.
Proof.
  pose proof (fun res =>
    check_response_version_can_raise example_pv example_version_gt
      example_STATUS_CODES res [200] (fresh empty_file)) as Hthm.
  destruct (Hthm (versioned "0.5.0rc1" 200 None)) as [Hraise _].
  destruct (Hthm (versioned "0.5.0rc1" 404 None)) as [Hraise' _].
  destruct (Hthm (versioned "0.10" 200 None)) as [_ (Hlog & _ & _ & Hok & _)].
  refine (conj (Hraise _ eq_refl) (conj (Hraise' _ eq_refl) (conj Hlog Hok))).
Defined.

(** C3 on a download that is redirected to the content. *)
Lemma download_outcomes_witness :
  let self := Binstar_init (Some "s3cr3t") api in
  let known := Some "d41d8cd98f00b204e9800998ecf8427e"%string in
  let run := example_download example_service self "alice" "pkg" "1.0"
               "pkg-1.0.tar.gz" known (fresh empty_file) in
  fst run = Ok (Some (response_of 200 None)) /\
  bare_requests (log (snd run)) =
    [bare_request GET "https://cdn.example/pkg-1.0.tar.gz" ∅ None true None] /\
  session_requests (log (snd run)) =
    [download_request self "alice" "pkg" "1.0" "pkg-1.0.tar.gz" known] /\
  req_headers (download_request self "alice" "pkg" "1.0" "pkg-1.0.tar.gz" known)
    !! "ETag" = known.
Proof.
  cbv zeta.
  set (self := Binstar_init (Some "s3cr3t") api).
  set (known := Some "d41d8cd98f00b204e9800998ecf8427e"%string).
  set (run := example_download example_service self "alice" "pkg" "1.0"
                "pkg-1.0.tar.gz" known (fresh empty_file)).
  destruct (download_outcomes example_pv example_version_gt example_STATUS_CODES
              example_service self "alice" "pkg" "1.0" "pkg-1.0.tar.gz" known
              (fresh empty_file))
    as (new & Hlog & Hsession & _ & Hcall & _ & _ & Hok).
  fold run in Hlog, Hok. rewrite app_nil_r in Hlog. rewrite <- Hlog in *.
  destruct (Hok (redirect "https://cdn.example/pkg-1.0.tar.gz") eq_refl)
    as (_ & Hfound & _).
  destruct (Hfound eq_refl) as (Hbare & reply2 & Hin & Hrun).
  assert (Hreply : reply2 = reply 200 None).
  { vm_compute in Hin. destruct Hin as [Hin | [Hin | []]].
    - injection Hin as <-. reflexivity.
    - discriminate Hin. }
  rewrite Hreply in Hrun.
  exact (conj Hrun (conj Hbare (conj Hsession Hcall))).
Defined.

(** C3 fails as stated: an empty digest is supplied and no [ETag] is sent;
    a 302 with no [Location] raises [KeyError] and no second GET is made. *)
Lemma download_counterexample :
  let self := Binstar_init (Some "s3cr3t") api in
  let run1 := example_download example_service self "alice" "pkg" "1.0"
                "pkg-1.0.tar.gz" (Some ""%string) (fresh empty_file) in
  let run2 := example_download (scripted [reply 302 None]) self "alice" "pkg" "1.0"
                "pkg-1.0.tar.gz" None (fresh empty_file) in
  map (fun req => req_headers req !! "ETag") (session_requests (log (snd run1)))
    = [None] /\
  fst run2 = Raise (KeyError "location") /\
  bare_requests (log (snd run2)) = [].
Proof. vm_compute. repeat split. Qed.

(** C4 on a commit answered with 200 and the metadata. *)
Lemma upload_commit_outcome_witness :
  let run := example_upload example_service (Binstar_init (Some "s3cr3t") api)
               "alice" "pkg" "1.0" "pkg-1.0.tar.gz" "sdist" "" None None None None
               (fresh empty_file) in
  fst run = Ok example_metadata.
Proof.
  cbv zeta.
  set (self := Binstar_init (Some "s3cr3t") api).
  set (run := example_upload example_service self
               "alice" "pkg" "1.0" "pkg-1.0.tar.gz" "sdist" "" None None None None
               (fresh empty_file)).
  destruct (upload_commit_outcome example_pv example_version_gt
              example_STATUS_CODES example_jencode example_compute_hash
              example_stream_multipart example_service self
              "alice" "pkg" "1.0" "pkg-1.0.tar.gz" "sdist" "" None None None None
              (fresh empty_file) (log (snd run))
              (session_request self POST
                 (endpoint self "commit" "alice" "pkg" "1.0" "pkg-1.0.tar.gz") ∅
                 (Some (example_jencode (JObj [("dist_id", JStr "5f3c")]))) true)
              (response_of 200 (Some example_metadata)))
    as (Hok & _).
  - symmetry. apply app_nil_r.
  - vm_compute. pick_event.
  - reflexivity.
  - fold run in Hok. rewrite (Hok eq_refl). reflexivity.
Defined.

(** C4 fails as stated: a commit answered with 201, a 2xx status, and the
    metadata makes the upload raise. *)
Lemma upload_commit_counterexample :
  let server := scripted [reply 200 (Some example_grant); reply 201 None;
                          reply 201 (Some example_metadata)] in
  let run := example_upload server (Binstar_init (Some "s3cr3t") api)
               "alice" "pkg" "1.0" "pkg-1.0.tar.gz" "sdist" "" None None None None
               (fresh empty_file) in
  fst run = Raise (ApiError BinstarError
                     (JStr "Created: Document created, URL follows (status code: 201)")
                     201) /\
  map url (session_requests (log (snd run))) =
    ["https://api.binstar.org/commit/alice/pkg/1.0/pkg-1.0.tar.gz"%string;
     "https://api.binstar.org/stage/alice/pkg/1.0/pkg-1.0.tar.gz"%string].
Proof. vm_compute. repeat split. Qed.

(** C8 fails as stated: the store phase answers 401 with an [error] in its
    body, and the upload raises the generic class with its own message. *)
Lemma store_failure_counterexample :
  let body := JObj [("error", JStr "signature mismatch")] in
  let server := scripted [reply 200 (Some example_grant); reply 401 (Some body)] in
  let run := example_upload server (Binstar_init (Some "s3cr3t") api)
               "alice" "pkg" "1.0" "pkg-1.0.tar.gz" "sdist" "" None None None None
               (fresh empty_file) in
  fst run = Raise (ApiError BinstarError (JStr "Error uploading to s3") 401) /\
  fst run <> Raise (ApiError Unauthorized (JStr "signature mismatch") 401).
Proof. vm_compute. split; [reflexivity | discriminate]. Qed.

(** C10 for two tokens against the same service. *)
Lemma unauthenticated_requests_witness :
  let c1 := Binstar_init (Some "s3cr3t") api in
  let c2 := Binstar_init (Some "0ther") api in
  let up c := example_upload example_service c "alice" "pkg" "1.0" "pkg-1.0.tar.gz"
                "sdist" "" None None None None (fresh empty_file) in
  let down c := example_download example_service c "alice" "pkg" "1.0"
                  "pkg-1.0.tar.gz" None (fresh empty_file) in
  bare_requests (log (snd (up c1))) = bare_requests (log (snd (up c2))) /\
  bare_requests (log (snd (down c1))) = bare_requests (log (snd (down c2))) /\
  map url (bare_requests (log (snd (up c1)))) = ["https://storage.example/bucket"%string] /\
  map url (bare_requests (log (snd (down c1)))) = ["https://cdn.example/pkg-1.0.tar.gz"%string] /\
  http_order (log (snd (up c1))) = [true; false; true] /\
  http_order (log (snd (down c1))) = [false; true] /\
  (forall req, In req (bare_requests (log (snd (up c1)))) ->
     req_headers req !! "Authorization" = None /\
     req_headers req !! "x-binstar-api-version" = None) /\
  (forall req, In req (bare_requests (log (snd (down c1)))) -> req_headers req = ∅).
Proof.
  cbv zeta.
  destruct (unauthenticated_requests_ignore_session example_pv example_version_gt
              example_STATUS_CODES example_jencode example_compute_hash
              example_stream_multipart example_service
              (Some "s3cr3t"%string) (Some "0ther"%string) api
              "alice" "pkg" "1.0" "pkg-1.0.tar.gz" "sdist" "" None None None None
              None (fresh empty_file))
    as (Hup & Hdown & Hstore & Hsecond).
  - reflexivity.
  - reflexivity.
  - destruct (Hstore (Binstar_init (Some "s3cr3t") api) (fresh empty_file))
      as (new & Hlog & _ & _ & Hheaders).
    destruct (Hsecond (Binstar_init (Some "s3cr3t") api) (fresh empty_file))
      as (new' & Hlog' & _ & _ & Hnone).
    rewrite app_nil_r in Hlog, Hlog'. rewrite <- Hlog in Hheaders.
    rewrite <- Hlog' in Hnone.
    refine (conj Hup (conj Hdown (conj _ (conj _ (conj _ (conj _ (conj _ _))))))).
    1-4: vm_compute; reflexivity.
    + intros req Hin. destruct (Hheaders req Hin) as (boundary & fields & f & body & Henc & _).
      unfold example_stream_multipart in Henc. injection Henc as _ <-.
      split; apply lookup_singleton_ne; discriminate.
    + intros req Hin. exact (proj1 (Hnone req Hin)).
Defined.

(** ** The rest of the interface in the concrete environment *)

Abbreviation example_authenticate :=
  (authenticate example_pv example_version_gt example_STATUS_CODES).

Abbreviation example_list_scopes :=
  (list_scopes example_pv example_version_gt example_STATUS_CODES).

(** X1 on a response of status 200 with and without a version that parses. *)
Lemma check_response_passes_witness :
  is_ok (fst (example_check_response (versioned "0.4.2" 200 None) [200]
                (fresh empty_file))) = true /\
  is_ok (fst (example_check_response (versioned "0.5.0rc1" 200 None) [200]
                (fresh empty_file))) = false /\
  is_ok (fst (example_check_response (versioned "0.4.2" 201 None) [200]
                (fresh empty_file))) = false.
Proof.
  pose proof (fun res =>
    proj1 (check_response_passes_iff_allowed example_pv example_version_gt
             example_STATUS_CODES res [200] (fresh empty_file))) as Hthm.
  exact (conj (Hthm (versioned "0.4.2" 200 None))
           (conj (Hthm (versioned "0.5.0rc1" 200 None))
              (Hthm (versioned "0.4.2" 201 None)))).
Defined.

(** X2 on a 404 whose body is a JSON string. *)
Lemma check_response_non_object_witness :
  fst (example_check_response (response_of 404 (Some (JStr "no such package")))
         [200] (fresh empty_file))
  = Raise (AttributeError "object has no attribute 'get'").
Proof.
  eapply check_response_non_object_escapes.
  - reflexivity.
  - intros H%list_elem_of_singleton. discriminate H.
  - reflexivity.
  - reflexivity.
Defined.

(** X3 on the stage request of a client with a token and on the first
    request of a download by a client whose token is empty. *)
Lemma constructed_client_witness :
  let with_token := Binstar_init (Some "s3cr3t") api in
  let without := Binstar_init (Some "") api in
  (req_headers (stage_request example_jencode with_token "alice" "pkg" "1.0"
                  "pkg-1.0.tar.gz" "sdist" "" None) !! "x-binstar-api-version"
   = Some "0.4.2" /\
   req_headers (stage_request example_jencode with_token "alice" "pkg" "1.0"
                  "pkg-1.0.tar.gz" "sdist" "" None) !! "Authorization"
   = Some "token s3cr3t") /\
  (req_headers (download_request without "alice" "pkg" "1.0" "pkg-1.0.tar.gz" None)
     !! "x-binstar-api-version" = Some "0.4.2" /\
   req_headers (download_request without "alice" "pkg" "1.0" "pkg-1.0.tar.gz" None)
     !! "Authorization" = None).
Proof.
  cbv zeta. split.
  - eapply (constructed_client_requests_carry_token example_pv example_version_gt
              example_STATUS_CODES example_jencode example_compute_hash
              example_stream_multipart example_service (Some "s3cr3t"%string) api
              "alice" "pkg" "1.0" "pkg-1.0.tar.gz" "sdist" "" None None None None
              None (fresh empty_file)).
    + left. symmetry. apply app_nil_r.
    + vm_compute. pick_event.
  - eapply (constructed_client_requests_carry_token example_pv example_version_gt
              example_STATUS_CODES example_jencode example_compute_hash
              example_stream_multipart example_service (Some ""%string) api
              "alice" "pkg" "1.0" "pkg-1.0.tar.gz" "sdist" "" None None None None
              None (fresh empty_file)).
    + right. symmetry. apply app_nil_r.
    + vm_compute. pick_event.
Defined.

(** X5 on scenario A: the body stored was encoded from the fields of the
    grant, the length and the digest. *)
Lemma upload_returns_witness :
  let run := example_upload example_service (Binstar_init (Some "s3cr3t") api)
               "alice" "pkg" "1.0" "pkg-1.0.tar.gz" "sdist" "" None None None None
               (fresh empty_file) in
  exists body headers,
    example_stream_multipart 7
      (JObj [("key", JStr "dist/pkg-1.0.tar.gz"); ("Content-Length", JNum 0);
             ("Content-MD5", JStr "1B2M2Y8AsgTpgAmY7PhCfg==")])
      "pkg-1.0.tar.gz" empty_file None = Ok (body, headers) /\
    bare_requests (log (snd run))
    = [store_request "https://storage.example/bucket" body headers].
Proof.
  cbv zeta.
  destruct (upload_returns_after_three_phases example_pv example_version_gt
              example_STATUS_CODES example_jencode example_compute_hash
              example_stream_multipart example_service
              (Binstar_init (Some "s3cr3t") api)
              "alice" "pkg" "1.0" "pkg-1.0.tar.gz" "sdist" "" None None None None
              (fresh empty_file) example_metadata
              (log (snd (example_upload example_service
                           (Binstar_init (Some "s3cr3t") api)
                           "alice" "pkg" "1.0" "pkg-1.0.tar.gz" "sdist" "" None
                           None None None (fresh empty_file)))))
    as (_ & res & obj & u & fields & dist_id & hex & b64 & n & f' & body
          & headers & s3res & cres & Hstage & _ & Hbody & Hurl & Hfields & _
          & Hhash & Hencode & Hbare & _).
  - reflexivity.
  - symmetry. apply app_nil_r.
  - injection Hstage as <-. injection Hbody as <-.
    injection Hurl as <-. injection Hfields as <-.
    injection Hhash as <- <- <- <-.
    exists body, headers. split; [exact Hencode | exact Hbare].
Defined.

(** X6 on a grant that lacks its distribution id. *)
Lemma upload_missing_dist_id_witness :
  let grant := JObj [("s3_url", JStr "https://storage.example/bucket");
                     ("s3form_data", JObj [("key", JStr "dist/pkg-1.0.tar.gz")])] in
  let run := example_upload (scripted [reply 200 (Some grant); reply 201 None])
               (Binstar_init (Some "s3cr3t") api)
               "alice" "pkg" "1.0" "pkg-1.0.tar.gz" "sdist" "" None None None None
               (fresh empty_file) in
  fst run = Raise (KeyError "dist_id") /\
  http_order (log (snd run)) = [false; true] /\
  In BodyRead (fd_ops (log (snd run))).
Proof.
  cbv zeta.
  eapply upload_missing_dist_id_fails_after_store
    with (res := response_of 200
                   (Some (JObj [("s3_url", JStr "https://storage.example/bucket");
                                ("s3form_data",
                                 JObj [("key", JStr "dist/pkg-1.0.tar.gz")])])))
         (s3res := response_of 201 None)
         (sreq := store_request "https://storage.example/bucket" "--7--"
                    {[ "Content-Type" := "multipart/form-data; boundary=7" ]}).
  - symmetry. apply app_nil_r.
  - vm_compute. pick_event.
  - reflexivity.
  - reflexivity.
  - vm_compute. pick_event.
  - reflexivity.
Defined.

(** X7 on a stage response without the form fields. *)
Lemma upload_malformed_grant_witness :
  let grant := JObj [("s3_url", JStr "https://storage.example/bucket");
                     ("dist_id", JStr "5f3c")] in
  let run := example_upload (scripted [reply 200 (Some grant)])
               (Binstar_init (Some "s3cr3t") api)
               "alice" "pkg" "1.0" "pkg-1.0.tar.gz" "sdist" "" None None None None
               (fresh part_read_file) in
  fst run = Raise (KeyError "s3form_data") /\
  http_order (log (snd run)) = [true] /\
  fd_ops (log (snd run)) = [] /\
  fd (snd run) = part_read_file.
Proof.
  cbv zeta.
  eapply upload_malformed_grant_fails_fast
    with (res := response_of 200
                   (Some (JObj [("s3_url", JStr "https://storage.example/bucket");
                                ("dist_id", JStr "5f3c")]))).
  - symmetry. apply app_nil_r.
  - vm_compute. pick_event.
  - reflexivity.
  - reflexivity.
  - right. eexists. split; [reflexivity |]. right. split; reflexivity.
Defined.

(** X8 on a store phase that answers 500 with a text. *)
Lemma upload_prints_witness :
  let failure := {| status_code := 500; res_headers := ∅;
                    text := "<Error>SignatureDoesNotMatch</Error>";
                    json_body := None |} in
  let run := example_upload (scripted [reply 200 (Some example_grant); Ok failure])
               (Binstar_init (Some "s3cr3t") api)
               "alice" "pkg" "1.0" "pkg-1.0.tar.gz" "sdist" "" None None None None
               (fresh empty_file) in
  printed (log (snd run)) = [""; ""; "<Error>SignatureDoesNotMatch</Error>"]%string.
Proof.
  cbv zeta.
  destruct (upload_prints_only_on_store_failure example_pv example_version_gt
              example_STATUS_CODES example_jencode example_compute_hash
              example_stream_multipart
              (scripted [reply 200 (Some example_grant);
                         Ok {| status_code := 500; res_headers := ∅;
                               text := "<Error>SignatureDoesNotMatch</Error>";
                               json_body := None |}])
              (Binstar_init (Some "s3cr3t") api)
              "alice" "pkg" "1.0" "pkg-1.0.tar.gz" "sdist" "" None None None None
              (fresh empty_file))
    as (new & Hlog & _ & Hfailure).
  rewrite Hlog, app_nil_r.
  apply (Hfailure
           (store_request "https://storage.example/bucket" "--7--"
              {[ "Content-Type" := "multipart/form-data; boundary=7" ]})
           {| status_code := 500; res_headers := ∅;
              text := "<Error>SignatureDoesNotMatch</Error>"; json_body := None |}).
  - rewrite app_nil_r in Hlog. rewrite <- Hlog. vm_compute. pick_event.
  - discriminate.
Defined.

(** X9 for a client and its packages. *)
Lemma queries_ask_once_witness :
  let self := Binstar_init (Some "s3cr3t") api in
  asks_once example_pv example_version_gt example_service
    (user example_pv example_version_gt example_STATUS_CODES example_service
       self (Some "alice"%string))
    (query_request self "https://api.binstar.org/user/alice") /\
  asks_once example_pv example_version_gt example_service
    (distribution example_pv example_version_gt example_STATUS_CODES example_service
       self "alice" "pkg" "1.0" None)
    (query_request self "https://api.binstar.org/dist/alice/pkg/1.0/None").
Proof.
  cbv zeta.
  pose proof (queries_ask_once example_pv example_version_gt example_STATUS_CODES
                example_jencode example_service
                (Binstar_init (Some "s3cr3t") api) "alice" "pkg" "1.0" "bob"
                JNull JNull JNull "pkg-1.0.tar.gz") as Hall.
  rewrite List.Forall_forall in Hall.
  split.
  - apply (Hall (_, _)). cbn [In]. do 4 right. left. reflexivity.
  - apply (Hall (_, _)). cbn [In]. do 12 right. left. reflexivity.
Defined.

(** X11 on a server that grants a token to a client built with
    another one. *)
Lemma authenticate_returns_witness :
  let self := Binstar_init (Some "0ld") api in
  let server := scripted [reply 200 (Some (JObj [("token", JStr "t0k3n")]))] in
  let run := example_authenticate server example_b64encode example_json_dumps
               example_py_str example_uname self "alice" "pa55"
               (JStr "binstar-cli") JNull JNull JNull JNull JNull (JStr "strong")
               (fresh empty_file) in
  exists c',
    fst run = Ok (JStr "t0k3n", c') /\
    session_headers (session c') !! "Authorization" = Some "token t0k3n"%string /\
    token c' = Some "0ld"%string.
Proof.
  cbv zeta. eexists. split; [reflexivity |].
  edestruct (authenticate_returns_token example_pv example_version_gt
               example_STATUS_CODES
               (scripted [reply 200 (Some (JObj [("token", JStr "t0k3n")]))])
               example_b64encode example_json_dumps example_py_str example_uname
               (Binstar_init (Some "0ld") api) "alice" "pa55"
               (JStr "binstar-cli") JNull JNull JNull JNull JNull (JStr "strong")
               (fresh empty_file)) as (_ & Hheader & _ & Htoken & _).
  - reflexivity.
  - split; [exact Hheader | exact Htoken].
Defined.

(** X12: the upload that follows carries the token granted. *)
Lemma authenticate_then_transfer_witness :
  let self := Binstar_init (Some "0ld") api in
  let server := scripted [reply 200 (Some (JObj [("token", JStr "t0k3n")]));
                          reply 200 (Some example_grant); reply 201 None;
                          reply 200 (Some example_metadata)] in
  let login := example_authenticate server example_b64encode example_json_dumps
                 example_py_str example_uname self "alice" "pa55"
                 (JStr "binstar-cli") JNull JNull JNull JNull JNull (JStr "strong")
                 (fresh empty_file) in
  let self' := set_token example_py_str self (JStr "t0k3n") in
  fst login = Ok (JStr "t0k3n", self') /\
  req_headers
    (stage_request example_jencode self' "alice" "pkg" "1.0" "pkg-1.0.tar.gz"
       "sdist" "" None)
    !! "Authorization" = Some "token t0k3n"%string /\
  fst (example_upload server self' "alice" "pkg" "1.0" "pkg-1.0.tar.gz" "sdist" ""
         None None None None (snd login)) = Ok example_metadata.
Proof.
  cbv zeta.
  set (self := Binstar_init (Some "0ld") api).
  set (server := scripted [reply 200 (Some (JObj [("token", JStr "t0k3n")]));
                           reply 200 (Some example_grant); reply 201 None;
                           reply 200 (Some example_metadata)]).
  set (login := example_authenticate server example_b64encode example_json_dumps
                  example_py_str example_uname self "alice" "pa55"
                  (JStr "binstar-cli") JNull JNull JNull JNull JNull (JStr "strong")
                  (fresh empty_file)).
  set (self' := set_token example_py_str self (JStr "t0k3n")).
  set (up := example_upload server self' "alice" "pkg" "1.0" "pkg-1.0.tar.gz"
               "sdist" "" None None None None (snd login)).
  split; [reflexivity | split; [| vm_compute; reflexivity]].
  apply (authenticate_then_transfer example_pv example_version_gt
           example_STATUS_CODES example_jencode example_compute_hash
           example_stream_multipart server
           example_b64encode example_json_dumps example_py_str example_uname
           self "alice" "pa55"
           (JStr "binstar-cli") JNull JNull JNull JNull JNull (JStr "strong")
           (fresh empty_file)
           "alice" "pkg" "1.0" "pkg-1.0.tar.gz" "sdist" "" None None None None None
           (JStr "t0k3n") self' (snd login) (take 7 (log (snd up)))).
  - reflexivity.
  - left. vm_compute. reflexivity.
  - vm_compute. pick_event.
Defined.

(** X13 for two clients of one domain with different tokens. *)
Lemma list_scopes_witness :
  example_list_scopes (scripted [reply 200 (Some (JArr [JStr "api:read"]))])
    (Binstar_init (Some "s3cr3t") api) (fresh empty_file)
  = example_list_scopes (scripted [reply 200 (Some (JArr [JStr "api:read"]))])
      (Binstar_init None api) (fresh empty_file) /\
  fst (example_list_scopes (scripted [reply 200 (Some (JArr [JStr "api:read"]))])
         (Binstar_init (Some "s3cr3t") api) (fresh empty_file))
  = Ok (JArr [JStr "api:read"]).
Proof.
  split; [| reflexivity].
  eapply list_scopes_ignores_session. reflexivity.
Defined.

(** X14 on attributes that hold a summary of their own. *)
Lemma add_package_witness :
  let attrs := JObj [("summary", JStr "stale"); ("home", JStr "https://pkg.example")] in
  let run := add_package example_pv example_version_gt example_STATUS_CODES
               example_jencode (scripted [reply 200 (Some example_metadata)])
               (Binstar_init (Some "s3cr3t") api) "alice" "pkg"
               (JStr "A package") (JStr "BSD") (JBool true) (JBool true) JNull attrs
               (fresh empty_file) in
  exists items,
    map data (session_requests (log (snd run)))
    = [Some (example_jencode
               (JObj [("public", JBool true); ("publish", JBool true);
                      ("public_attrs", JObj items)]))] /\
    assoc "summary" items = Some (JStr "A package") /\
    assoc "home" items = Some (JStr "https://pkg.example").
Proof.
  cbv zeta.
  destruct (add_package_public_attrs example_pv example_version_gt
              example_STATUS_CODES example_jencode
              (scripted [reply 200 (Some example_metadata)])
              (Binstar_init (Some "s3cr3t") api) "alice" "pkg"
              (JStr "A package") (JStr "BSD") (JBool true) (JBool true) JNull
              (JObj [("summary", JStr "stale"); ("home", JStr "https://pkg.example")])
              (fresh empty_file))
    as (items & new & Hlog & Hsession & _ & Hsummary & _ & Hother).
  exists items. rewrite Hlog, app_nil_r, Hsession.
  split; [reflexivity | split; [exact Hsummary |]].
  rewrite Hother by discriminate. reflexivity.
Defined.
